(** * Data Sweeper: the conversion and cleaning pipeline of [main.py]

    A shallow embedding of the functions of [main.py] that load an
    uploaded file, clean it, project it on the chosen columns and
    export it, and of the loop of [main] that drives them.

    - [PyStr] holds the string functions the program calls
      ([str.lower], [str.rfind], [str.replace], [os.path.splitext]).
    - [Frame] holds the tabular values and the dataframe operations the
      program calls ([drop_duplicates], [select_dtypes], [mean],
      [fillna], column selection by a list of labels).
    - [App] holds the functions of [main.py] themselves, with the
      Streamlit calls recorded as a list of events and the elements of
      the page registered as Streamlit does.

    Numbers are binary64 floating-point values (the kernel's primitive
    floats). The sign of zero is not kept: pandas compares and counts
    [-0.0] as [0.0]. The sum of a column is an operation of the library,
    like its readers and writers: the order and the grouping of the
    additions, and so the rounding of the sum, are the library's. *)

From Stdlib Require Import String Ascii List ZArith Lia Bool.
From Stdlib Require Import DecimalString Floats Uint63 Eqdep_dec.
Import ListNotations.

Local Open Scope nat_scope.
Local Open Scope string_scope.
Local Open Scope list_scope.

(* ================================================================== *)
(** ** Python strings *)

Module PyStr.

(** [s[:n]] *)
Fixpoint slice_to (n : nat) (s : string) : string :=
  match n, s with
  | S k, String c s' => String c (slice_to k s')
  | _, _ => ""
  end.

(** [s[n:]] *)
Fixpoint slice_from (n : nat) (s : string) : string :=
  match n, s with
  | S k, String _ s' => slice_from k s'
  | _, _ => s
  end.

(** [s.rfind(c)] for a one-character [c]: the highest index at which
    [c] occurs, [-1] when it does not occur. *)
Fixpoint rfind (c : ascii) (s : string) : Z :=
  match s with
  | "" => (-1)%Z
  | String a s' =>
      let r := rfind c s' in
      if (0 <=? r)%Z then (r + 1)%Z
      else if Ascii.eqb a c then 0%Z else (-1)%Z
  end.

(** [c.lower()] on one character: the letters [A]..[Z] are shifted to
    [a]..[z], every other byte is kept (file names are taken to be
    ASCII). *)
Definition lower_ascii (c : ascii) : ascii :=
  let n := nat_of_ascii c in
  if andb (Nat.leb 65 n) (Nat.leb n 90) then ascii_of_nat (n + 32) else c.

(** [s.lower()] *)
Fixpoint lower (s : string) : string :=
  match s with
  | "" => ""
  | String c s' => String (lower_ascii c) (lower s')
  end.

(** The loop of [genericpath._splitext] that skips the leading dots of
    the last path component: [n] is the number of indices left before
    [dotIndex]; the answer is [true] as soon as a character other than
    [.] is met (the function then returns the split), [false] when the
    loop runs out (the function then returns [(p, "")]). *)
Fixpoint has_name_before_dot (p : string) (filenameIndex n : nat) : bool :=
  match n with
  | O => false
  | S k =>
      if negb (String.eqb (slice_to 1 (slice_from filenameIndex p)) ".")
      then true
      else has_name_before_dot p (S filenameIndex) k
  end.

(** [os.path.splitext(p)] (posixpath: separator [/], no alternative
    separator, extension separator [.]). *)
Definition splitext (p : string) : string * string :=
  let sepIndex := rfind "/" p in
  let dotIndex := rfind "." p in
  if (dotIndex >? sepIndex)%Z then
    let filenameIndex := Z.to_nat (sepIndex + 1) in
    if has_name_before_dot p filenameIndex (Z.to_nat dotIndex - filenameIndex)
    then (slice_to (Z.to_nat dotIndex) p, slice_from (Z.to_nat dotIndex) p)
    else (p, "")
  else (p, "").

(** [s.replace("", new)]: [new] is put in front of every character and
    after the last one. *)
Fixpoint replace_interleave (new s : string) : string :=
  match s with
  | "" => new
  | String c s' => new ++ String c (replace_interleave new s')
  end.

(** [s.replace(old, new)] for a non-empty [old]: one scan from left to
    right; at an occurrence of [old] the replacement is emitted and the
    scan resumes after the occurrence ([skip] counts the characters of
    the occurrence still to pass over), so occurrences do not overlap. *)
Fixpoint replace_scan (old new : string) (skip : nat) (s : string) : string :=
  match s with
  | "" => ""
  | String c s' =>
      match skip with
      | S k => replace_scan old new k s'
      | O =>
          if prefix old s
          then new ++ replace_scan old new (String.length old - 1) s'
          else String c (replace_scan old new 0 s')
      end
  end.

(** [s.replace(old, new)]: every occurrence is replaced. *)
Definition replace (s old new : string) : string :=
  match old with
  | "" => replace_interleave new s
  | _ => replace_scan old new 0 s
  end.

(** [sep.join(pieces)] *)
Fixpoint join (sep : string) (pieces : list string) : string :=
  match pieces with
  | [] => ""
  | [p] => p
  | p :: ps => p ++ sep ++ join sep ps
  end.

(** [old in s]: [old] occurs somewhere in [s]. *)
Fixpoint occurs (old s : string) : bool :=
  match s with
  | "" => prefix old ""
  | String _ s' => prefix old s || occurs old s'
  end.

(** The replacement the specification describes: only the first
    occurrence of [old] is replaced ([s.replace(old, new, 1)]). *)
Fixpoint replace_first (old new s : string) : string :=
  match s with
  | "" => if prefix old "" then new else ""
  | String c s' =>
      if prefix old s then new ++ slice_from (String.length old) s
      else String c (replace_first old new s')
  end.

(** The characters of a string. *)
Fixpoint chars (s : string) : list ascii :=
  match s with
  | "" => []
  | String c s' => c :: chars s'
  end.

End PyStr.

(* ================================================================== *)
(** ** Dataframes *)

Module Frame.

(** A binary64 value that is a number: not the float [nan], which is
    the missing marker, and with an unsigned zero. *)
Definition is_proper (x : float) : bool :=
  negb (PrimFloat.is_nan x) && negb (PrimFloat.Leibniz.eqb x (-0)%float).

Record float64 : Type := mk_float64 {
  bits : float;
  proper : is_proper bits = true
}.

(** A scalar of a column: a number, a string ([Str] stands for every
    value that is not a number), or the missing marker. *)
Inductive cell : Type :=
  | Num (x : float64)
  | Str (s : string)
  | NaN.

Definition unsigned_zero (x : float) : float :=
  if PrimFloat.Leibniz.eqb x (-0)%float then 0%float else x.

Definition unsigned_zero_proper (x : float) :
  PrimFloat.is_nan x = false -> is_proper (unsigned_zero x) = true.
Proof.
  intros H. unfold unsigned_zero.
  destruct (PrimFloat.Leibniz.eqb x (-0)%float) eqn:E; [reflexivity|].
  unfold is_proper. now rewrite H, E.
Qed.

(** The cell that holds the result [x] of a float computation: the
    missing marker when [x] is [nan]. *)
Definition cell_of_float (x : float) : cell :=
  (if PrimFloat.is_nan x as b return (PrimFloat.is_nan x = b -> cell)
   then fun _ => NaN
   else fun H => Num (mk_float64 (unsigned_zero x)
                        (unsigned_zero_proper x H))) eq_refl.

(** [float(n)] for a count. *)
Definition float_of_nat (n : nat) : float :=
  PrimFloat.of_uint63 (Uint63.of_Z (Z.of_nat n)).

(** The declared type of a column, as [select_dtypes(include='number')]
    sees it: [number] for the integer and floating types, [object] for
    every other one. *)
Inductive dtype : Type :=
  | number
  | object.

(** One column. *)
Record Series : Type := mkSeries {
  label : string;
  kind : dtype;
  values : list cell
}.

(** A dataframe: the row labels ([index]) and the columns in order.
    The number of rows is the length of the index, also when there is
    no column. *)
Record DataFrame : Type := mkDataFrame {
  index : list nat;
  series : list Series
}.

(** What [df[...]] raises on labels that are not columns: a [KeyError]
    whose message lists all the requested labels when none of them is a
    column, and the absent ones otherwise. *)
Inductive exn : Type :=
  | KeyError_none_in_columns (keys : list string)
  | KeyError_not_in_index (not_found : list string).

(** The labels an exception names. *)
Definition named (e : exn) : list string :=
  match e with
  | KeyError_none_in_columns keys => keys
  | KeyError_not_in_index not_found => not_found
  end.

Definition cell_eqb (a b : cell) : bool :=
  match a, b with
  | Num x, Num y => PrimFloat.Leibniz.eqb (bits x) (bits y)
  | Str s, Str t => String.eqb s t
  | NaN, NaN => true
  | _, _ => false
  end.

Fixpoint row_eqb (r s : list cell) : bool :=
  match r, s with
  | [], [] => true
  | a :: r', b :: s' => cell_eqb a b && row_eqb r' s'
  | _, _ => false
  end.

Definition is_number (k : dtype) : bool :=
  match k with number => true | object => false end.

(** [df.columns] *)
Definition columns (df : DataFrame) : list string :=
  map label (series df).

(** [len(df)] *)
Definition len (df : DataFrame) : nat :=
  List.length (index df).

(** [df.empty]: some axis has length 0. *)
Definition empty (df : DataFrame) : bool :=
  Nat.eqb (len df) 0 || Nat.eqb (List.length (series df)) 0.

(** The rows of [n]-long columns, read across the columns. *)
Fixpoint rows_of (n : nat) (cols : list (list cell)) : list (list cell) :=
  match n with
  | O => []
  | S k => map (hd NaN) cols :: rows_of k (map (@tl cell) cols)
  end.

(** The rows of a frame, in order. *)
Definition rows (df : DataFrame) : list (list cell) :=
  rows_of (len df) (map values (series df)).

(** The invariant of a table: every column is as long as the index and
    no label is used for two columns. *)
Definition wf (df : DataFrame) : Prop :=
  Forall (fun s => List.length (values s) = len df) (series df)
  /\ NoDup (columns df).

(** Boolean indexing of a sequence: the entries whose mask is [true]. *)
Fixpoint compress {A : Type} (mask : list bool) (l : list A) : list A :=
  match mask, l with
  | b :: mask', x :: l' =>
      if b then x :: compress mask' l' else compress mask' l'
  | _, _ => []
  end.

(** [df[mask]] for a boolean mask over the rows. *)
Definition getitem_mask (df : DataFrame) (mask : list bool) : DataFrame :=
  {| index := compress mask (index df);
     series := map (fun s => {| label := label s; kind := kind s;
                                values := compress mask (values s) |})
                   (series df) |}.

(** The scan behind [duplicated(keep='first')]: a row is marked when an
    equal row was met before; [seen] holds the rows met so far, one per
    distinct row. Two missing values are equal. *)
Fixpoint duplicated_from (seen rs : list (list cell)) : list bool :=
  match rs with
  | [] => []
  | r :: rs' =>
      if existsb (row_eqb r) seen
      then true :: duplicated_from seen rs'
      else false :: duplicated_from (r :: seen) rs'
  end.

(** [df.duplicated()] *)
Definition duplicated (df : DataFrame) : list bool :=
  if empty df then [] else duplicated_from [] (rows df).

(** [df.drop_duplicates()]: an empty frame is returned as it is, any
    other one loses the rows [duplicated] marks. *)
Definition drop_duplicates (df : DataFrame) : DataFrame :=
  if empty df then df
  else getitem_mask df (map negb (duplicated df)).

(** [df.select_dtypes(include='number')] *)
Definition select_dtypes_number (df : DataFrame) : DataFrame :=
  {| index := index df;
     series := filter (fun s => is_number (kind s)) (series df) |}.

(** [Index.unique()]: the labels in order of first appearance. *)
Fixpoint unique_from (seen l : list string) : list string :=
  match l with
  | [] => []
  | x :: l' =>
      if existsb (String.eqb x) seen then unique_from seen l'
      else x :: unique_from (x :: seen) l'
  end.

Definition unique (l : list string) : list string := unique_from [] l.

(** [df[keys]] for a list of labels: the columns of each label, in the
    order of [keys]; [KeyError] when a label is not a column. *)
Definition getitem_list (df : DataFrame) (keys : list string)
  : exn + DataFrame :=
  let not_found :=
    filter (fun k => negb (existsb (String.eqb k) (columns df))) keys in
  match not_found with
  | [] =>
      inr {| index := index df;
             series := flat_map
                         (fun k => filter (fun s => String.eqb (label s) k)
                                          (series df))
                         keys |}
  | _ :: _ =>
      if Nat.eqb (List.length not_found) (List.length keys)
      then inl (KeyError_none_in_columns keys)
      else inl (KeyError_not_in_index (unique not_found))
  end.

(** The numbers of a column, the missing values skipped. *)
Definition present (vals : list cell) : list float64 :=
  flat_map (fun c => match c with Num x => [x] | _ => [] end) vals.

(** The value a cell adds to the sum of its column: missing entries
    count as 0. *)
Definition value_or_zero (c : cell) : float :=
  match c with Num x => bits x | _ => 0%float end.

(** A sum of a column in binary64: the entries added one by one in
    row order, from 0. *)
Definition float_sum (vals : list cell) : float :=
  fold_left PrimFloat.add (map value_or_zero vals) 0%float.

(** [Series.mean()] ([skipna=True]): the sum of the column, as the
    library's [nansum] takes it with the missing entries skipped,
    divided by the number of present entries; the missing marker when
    no entry is present or when the quotient is [nan]. *)
Definition mean (nansum : list cell -> float) (vals : list cell) : cell :=
  match present vals with
  | [] => NaN
  | xs => cell_of_float
            (PrimFloat.div (nansum vals) (float_of_nat (List.length xs)))
  end.

(** [df.mean()]: the mean of every column, by label. *)
Definition frame_mean (nansum : list cell -> float) (df : DataFrame)
  : list (string * cell) :=
  map (fun s => (label s, mean nansum (values s))) (series df).

(** Lookup of a label in a series of values. *)
Fixpoint lookup (k : string) (l : list (string * cell)) : option cell :=
  match l with
  | [] => None
  | (k', v) :: l' => if String.eqb k' k then Some v else lookup k l'
  end.

(** [Series.fillna(v)]: the missing entries become [v]. *)
Definition fillna_values (v : cell) (vals : list cell) : list cell :=
  map (fun c => match c with NaN => v | _ => c end) vals.

(** [df.fillna(value)] for a [value] given by column label: a column
    without an entry in [value] is left as it is. *)
Definition fillna (df : DataFrame) (value : list (string * cell)) : DataFrame :=
  {| index := index df;
     series := map (fun s =>
                      match lookup (label s) value with
                      | Some v => {| label := label s; kind := kind s;
                                     values := fillna_values v (values s) |}
                      | None => s
                      end)
                   (series df) |}.

(** [df[k] = s]: the column labelled [k] takes the type and the values
    of [s]; a new column is appended when [k] is not a column yet. *)
Definition set_column (df : DataFrame) (k : string) (s : Series) : DataFrame :=
  if existsb (String.eqb k) (columns df)
  then {| index := index df;
          series := map (fun c =>
                           if String.eqb (label c) k
                           then {| label := label c; kind := kind s;
                                   values := values s |}
                           else c)
                        (series df) |}
  else {| index := index df;
          series := series df ++ [ {| label := k; kind := kind s;
                                      values := values s |} ] |}.

(** [df[keys] = value] for a frame [value]: the labels of [keys] are
    paired with the columns of [value] in order and assigned one by
    one. *)
Definition setitem_frame (df : DataFrame) (keys : list string)
  (value : DataFrame) : DataFrame :=
  fold_left (fun d ks => set_column d (fst ks) (snd ks))
            (combine keys (series value)) df.

(** [df.head()] *)
Definition head (df : DataFrame) : DataFrame :=
  {| index := firstn 5 (index df);
     series := map (fun s => {| label := label s; kind := kind s;
                                values := firstn 5 (values s) |})
                   (series df) |}.

(** [df.iloc[:, :n]] *)
Definition iloc_columns (n : nat) (df : DataFrame) : DataFrame :=
  {| index := index df; series := firstn n (series df) |}.

(** [df[k]] for one label: the column labelled [k]. *)
Definition column (df : DataFrame) (k : string) : option Series :=
  find (fun s => String.eqb (label s) k) (series df).

(** A column with its missing entries replaced by the mean of its
    present entries. *)
Definition fill_with_mean (nansum : list cell -> float) (s : Series)
  : Series :=
  {| label := label s; kind := kind s;
     values := fillna_values (mean nansum (values s)) (values s) |}.

(** The fill the specification describes: every numeric column is
    filled with its own mean, every other column is kept. *)
Definition fill_numeric (nansum : list cell -> float) (df : DataFrame)
  : DataFrame :=
  {| index := index df;
     series := map (fun s => if is_number (kind s)
                             then fill_with_mean nansum s
                             else s)
                   (series df) |}.

(** What the fill does to one column. *)
Definition fill_column (nansum : list cell -> float) (s : Series) : Series :=
  if is_number (kind s) then fill_with_mean nansum s else s.

(** The mask the specification describes: row [i] stays when no row
    before it has the same values. *)
Definition first_occurrence (rs : list (list cell)) (i : nat) : bool :=
  negb (existsb (fun j => row_eqb (nth i rs []) (nth j rs [])) (seq 0 i)).

Definition first_occurrences (rs : list (list cell)) : list bool :=
  map (first_occurrence rs) (seq 0 (List.length rs)).

End Frame.

(* ================================================================== *)
(** ** The application *)

Module App.

Import PyStr Frame.

(** A file as the uploader hands it over. *)
Record UploadedFile : Type := mkUploadedFile {
  name : string;
  size : nat;
  content : list Byte.byte
}.

(** The readers and writers of the dataframe library, and its sum of
    a column. Parsing and serialisation are not modelled: a reader maps
    a file to the frame it parses to, or to the message of the
    exception it raises; a writer maps a frame to the bytes written to
    the buffer, or to the message of the exception it raises. [nansum]
    is the binary64 sum of the present entries of a column: in which
    order and grouping the entries are added, and so how the sum is
    rounded, is left to the library. *)
Record Pandas : Type := mkPandas {
  read_csv : UploadedFile -> string + DataFrame;
  read_excel : UploadedFile -> string + DataFrame;
  to_csv : DataFrame -> string + list Byte.byte;
  to_excel : DataFrame -> string + list Byte.byte;
  nansum : list cell -> float
}.

(** The state of the widgets during one run of the script: what the
    user uploaded, ticked and picked. Widgets are identified by their
    label. [picked] is [None] for a multiselect the user did not
    touch. *)
Record Session : Type := mkSession {
  uploaded : list UploadedFile;
  radio_choice : string;
  sidebar_checked : string -> bool;
  checked : string -> bool;
  picked : string -> option (list string)
}.

(** The identity Streamlit gives an element that is created without
    [key]: its kind and the parameters of the call. *)
Inductive element_id : Type :=
  | file_uploader_id
  | radio_id (label : string) (options : list string)
  | checkbox_id (label : string)
  | multiselect_id (label : string) (options default : list string)
  | download_button_id (label file_name mime : string).

Definition element_id_eq_dec (a b : element_id) : {a = b} + {a <> b}.
Proof.
  decide equality; try apply string_dec; apply (list_eq_dec string_dec).
Defined.

(** The kind of element, as Streamlit names it in its messages. *)
Definition element_type (i : element_id) : string :=
  match i with
  | file_uploader_id => "file_uploader"
  | radio_id _ _ => "radio"
  | checkbox_id _ => "checkbox"
  | multiselect_id _ _ _ => "multiselect"
  | download_button_id _ _ _ => "download_button"
  end.

(** What a computation of the script can raise: the [KeyError] of the
    dataframe library, or Streamlit's refusal of an element whose
    identity is already taken in the run. *)
Inductive error : Type :=
  | KeyError (e : exn)
  | StreamlitDuplicateElementId (element_type : string).

(** The calls to Streamlit, in the order the script makes them.
    [st_error_exception prefix e] is [st.error(prefix + str(e))] for
    an exception [e] of Streamlit. *)
Inductive event : Type :=
  | set_page_config
  | st_markdown_styles
  | st_title
  | st_write_intro
  | st_expander_guide
  | st_file_uploader
  | st_progress (value : float)
  | progress_bar_progress (value : float)
  | progress_bar_empty
  | st_sidebar_radio (label : string) (options : list string)
  | st_header (text : string)
  | st_error (msg : string)
  | st_error_exception (prefix : string) (e : error)
  | st_warning (msg : string)
  | st_success (msg : string)
  | st_write_size (kilobytes : float)
  | st_dataframe (df : DataFrame)
  | st_sidebar_checkbox (label : string)
  | st_sidebar_write (text : string)
  | st_multiselect (label : string) (options default : list string)
  | st_checkbox (label : string)
  | st_bar_chart (df : DataFrame)
  | st_download_button (label : string) (data : list Byte.byte)
      (file_name mime : string).

(** The element a call creates, for the calls that create one with an
    identity. *)
Definition element_of (e : event) : option element_id :=
  match e with
  | st_file_uploader => Some file_uploader_id
  | st_sidebar_radio label options => Some (radio_id label options)
  | st_sidebar_checkbox label => Some (checkbox_id label)
  | st_checkbox label => Some (checkbox_id label)
  | st_multiselect label options default =>
      Some (multiselect_id label options default)
  | st_download_button label _ file_name mime =>
      Some (download_button_id label file_name mime)
  | _ => None
  end.

(** The elements a list of calls created. *)
Definition elements (t : list event) : list element_id :=
  flat_map (fun e => match element_of e with Some i => [i] | None => [] end) t.

(** What a computation gives: the events it emitted, and either the
    exception that stopped it or its value. *)
Definition Result (A : Type) : Type := (list event * (error + A))%type.

(** A computation of the script, from the elements the run has created
    before it. *)
Definition M (A : Type) : Type := list element_id -> Result A.

Definition ret {A : Type} (a : A) : M A := fun _ => ([], inr a).

Definition bind {A B : Type} (m : M A) (k : A -> M B) : M B :=
  fun registered =>
    match m registered with
    | (t, inl e) => (t, inl e)
    | (t, inr a) =>
        let (t', r) := k a (registered ++ elements t) in (t ++ t', r)
    end.

(** One call to Streamlit: an element whose identity is already taken
    is refused with an exception, and then not created. *)
Definition emit (e : event) : M unit :=
  fun registered =>
    match element_of e with
    | Some i =>
        if in_dec element_id_eq_dec i registered
        then ([], inl (StreamlitDuplicateElementId (element_type i)))
        else ([e], inr tt)
    | None => ([e], inr tt)
    end.

(** An operation of the dataframe library that may raise. *)
Definition lift {A : Type} (r : exn + A) : M A :=
  fun _ => ([], match r with inl e => inl (KeyError e) | inr a => inr a end).

(** [try: m except Exception as e: handler e] *)
Definition try_except {A : Type} (m : M A) (handler : error -> M A) : M A :=
  fun registered =>
    match m registered with
    | (t, inl e) =>
        let (t', r) := handler e (registered ++ elements t) in (t ++ t', r)
    | (t, inr a) => (t, inr a)
    end.

(** The computation in a run that has created no element yet. *)
Definition run {A : Type} (m : M A) : Result A := m [].

Definition trace {A : Type} (r : Result A) : list event := fst r.
Definition outcome {A : Type} (r : Result A) : error + A := snd r.

Notation "x <- m ;; k" := (bind m (fun x => k))
  (at level 61, m at next level, right associativity).
Notation "m ;; k" := (bind m (fun _ => k))
  (at level 61, right associativity).

(** [str(n)] for an integer. *)
Definition str_int (n : Z) : string := NilZero.string_of_int (Z.to_int n).

(** *** Widgets *)

Definition sidebar_checkbox (ui : Session) (label : string) : M bool :=
  emit (st_sidebar_checkbox label) ;; ret (sidebar_checked ui label).

Definition checkbox (ui : Session) (label : string) : M bool :=
  emit (st_checkbox label) ;; ret (checked ui label).

(** A multiselect returns the default until the user picks, and only
    ever returns options. *)
Definition multiselect (ui : Session) (label : string)
  (options default : list string) : M (list string) :=
  emit (st_multiselect label options default) ;;
  ret (match picked ui label with
       | None => default
       | Some p => filter (fun k => existsb (String.eqb k) options) p
       end).

(** A radio button returns one of its options, the first one unless
    the user chose another. *)
Definition sidebar_radio (ui : Session) (label : string)
  (options : list string) : M string :=
  emit (st_sidebar_radio label options) ;;
  ret (if existsb (String.eqb (radio_choice ui)) options
       then radio_choice ui else hd "" options).

(** *** The functions of [main.py] *)

Definition apply_custom_styles : M unit := emit st_markdown_styles.

Definition configure_app : M unit :=
  emit set_page_config ;; apply_custom_styles.

Definition show_intro : M unit :=
  emit st_title ;; emit st_write_intro ;; emit st_expander_guide.

Definition handle_file_upload (ui : Session) : M (list UploadedFile) :=
  emit st_file_uploader ;; ret (uploaded ui).

Definition load_data (io : Pandas) (file : UploadedFile)
  : M (option DataFrame) :=
  let ext := lower (snd (splitext (name file))) in
  if String.eqb ext ".csv" then
    match read_csv io file with
    | inr df => ret (Some df)
    | inl e => emit (st_error ("Error loading " ++ name file ++ ": " ++ e)) ;;
               ret None
    end
  else if String.eqb ext ".xlsx" then
    match read_excel io file with
    | inr df => ret (Some df)
    | inl e => emit (st_error ("Error loading " ++ name file ++ ": " ++ e)) ;;
               ret None
    end
  else
    emit (st_error ("Unsupported file type: " ++ ext)) ;;
    ret None.

Definition clean_data (io : Pandas) (ui : Session) (df : DataFrame)
  (file_name : string) : M DataFrame :=
  dedup <- sidebar_checkbox ui ("Remove duplicates in " ++ file_name) ;;
  df <- (if dedup : bool then
           let initial_rows := len df in
           let df := drop_duplicates df in
           emit (st_sidebar_write
                   ("Removed "
                    ++ str_int (Z.of_nat initial_rows - Z.of_nat (len df))
                    ++ " duplicates")) ;;
           ret df
         else ret df) ;;
  fill <- sidebar_checkbox ui ("Fill missing values in " ++ file_name) ;;
  if fill : bool then
    let numeric_cols := columns (select_dtypes_number df) in
    target <- lift (getitem_list df numeric_cols) ;;
    source <- lift (getitem_list df numeric_cols) ;;
    let df := setitem_frame df numeric_cols
                (fillna target (frame_mean (nansum io) source)) in
    emit (st_sidebar_write "Filled missing numeric values") ;;
    ret df
  else ret df.

(** [set(a) == set(b)] *)
Definition set_eqb (a b : list string) : bool :=
  forallb (fun k => existsb (String.eqb k) b) a
  && forallb (fun k => existsb (String.eqb k) a) b.

(** The column filtering of [handle_column_selection], from the value
    the multiselect returned. *)
Definition filter_columns (df : DataFrame) (selected_columns : list string)
  : exn + DataFrame :=
  if list_eq_dec string_dec selected_columns (columns df) then inr df
  else if set_eqb selected_columns (columns df)
       then getitem_list df selected_columns
       else getitem_list df selected_columns.

Definition handle_column_selection (ui : Session) (df : DataFrame)
  (file_name : string) : M DataFrame :=
  selected_columns <- multiselect ui ("Select columns for " ++ file_name)
                        (columns df) (columns df) ;;
  lift (filter_columns df selected_columns).

(** The name offered for download. *)
Definition download_name (file_name new_ext : string) : string :=
  replace file_name (snd (splitext file_name)) new_ext.

Definition xlsx_mime : string :=
  "application/vnd.openxmlformats-officedocument.spreadsheetml.sheet".

(** The [try] of [convert_file] covers the writer and the download
    button: an exception of either is shown as an error. *)
Definition convert_file (io : Pandas) (df : DataFrame)
  (file_name target_format : string) : M unit :=
  let '(written, mime, new_ext) :=
    if String.eqb target_format "CSV"
    then (to_csv io df, "text/csv", ".csv")
    else (to_excel io df, xlsx_mime, ".xlsx") in
  match written with
  | inr buffer =>
      let download_name := download_name file_name new_ext in
      try_except
        (emit (st_download_button ("Download " ++ download_name) buffer
                 download_name mime))
        (fun e => emit (st_error_exception "Conversion failed: " e))
  | inl e => emit (st_error ("Conversion failed: " ++ e))
  end.

Definition skip_warning (file : UploadedFile) : event :=
  st_warning ("Skipping empty/invalid file: " ++ name file).

(** The body of the loop of [main] for the file at position [i] of
    [total]. *)
Definition process_file (io : Pandas) (ui : Session)
  (conversion_format : string) (total i : nat) (file : UploadedFile)
  : M unit :=
  emit (progress_bar_progress
          (PrimFloat.div (float_of_nat (i + 1)) (float_of_nat total))) ;;
  emit (st_header ("Processing: " ++ name file)) ;;
  df <- load_data io file ;;
  match df with
  | None => emit (skip_warning file)
  | Some df =>
      if empty df then emit (skip_warning file)
      else
        emit (st_write_size
                (PrimFloat.div (float_of_nat (size file))
                   (float_of_nat 1024))) ;;
        emit (st_dataframe (head df)) ;;
        df <- clean_data io ui df (name file) ;;
        df <- handle_column_selection ui df (name file) ;;
        show <- checkbox ui ("Show visualization for " ++ name file) ;;
        (if show : bool
         then emit (st_bar_chart (iloc_columns 2 (select_dtypes_number df)))
         else ret tt) ;;
        convert_file io df (name file) conversion_format
  end.

(** [for i, file in enumerate(files)] from index [i]. *)
Fixpoint for_each (body : nat -> UploadedFile -> M unit) (i : nat)
  (files : list UploadedFile) : M unit :=
  match files with
  | [] => ret tt
  | file :: files' => body i file ;; for_each body (S i) files'
  end.

Definition all_processed : event :=
  st_success "üéâ All files processed successfully!".

Definition main (io : Pandas) (ui : Session) : M unit :=
  configure_app ;;
  show_intro ;;
  uploaded_files <- handle_file_upload ui ;;
  match uploaded_files with
  | [] => ret tt
  | _ :: _ =>
      emit (st_progress 0%float) ;;
      conversion_format <- sidebar_radio ui "Choose output format:"
                             ["CSV"; "Excel"] ;;
      for_each (process_file io ui conversion_format
                  (List.length uploaded_files))
               0 uploaded_files ;;
      emit progress_bar_empty ;;
      emit all_processed
  end.

(** *** Reading a trace *)

Definition is_download (e : event) : bool :=
  match e with st_download_button _ _ _ _ => true | _ => false end.

Definition is_warning (e : event) : bool :=
  match e with st_warning _ => true | _ => false end.

(** The number of results offered for download. *)
Definition downloads (t : list event) : nat :=
  List.length (filter is_download t).

(** The number of warnings shown. *)
Definition warnings (t : list event) : nat :=
  List.length (filter is_warning t).

(** What [main] emits before the loop, for a batch that is not empty. *)
Definition prelude : list event :=
  [ set_page_config; st_markdown_styles; st_title; st_write_intro;
    st_expander_guide; st_file_uploader; st_progress 0%float;
    st_sidebar_radio "Choose output format:" ["CSV"; "Excel"] ].

(** The loop passes over the file: the loader returned no table, or a
    table that is empty (no row, or no column). *)
Definition passed_over (io : Pandas) (file : UploadedFile) : bool :=
  match outcome (run (load_data io file)) with
  | inr (Some df) => empty df
  | _ => true
  end.

Definition is_success (e : event) : bool :=
  match e with st_success _ => true | _ => false end.

(** The number of success messages shown. *)
Definition successes (t : list event) : nat :=
  List.length (filter is_success t).

(** A result with the events [t] in front of its own. *)
Definition prepend {A : Type} (t : list event) (r : Result A) : Result A :=
  (t ++ fst r, snd r).

(** The format the radio button returns in a session. *)
Definition conversion_format_of (ui : Session) : string :=
  if existsb (String.eqb (radio_choice ui)) ["CSV"; "Excel"]
  then radio_choice ui else "CSV".

(** The value the multiselect of [handle_column_selection] returns. *)
Definition chosen_columns (ui : Session) (df : DataFrame)
  (file_name : string) : list string :=
  match picked ui ("Select columns for " ++ file_name) with
  | None => columns df
  | Some p => filter (fun k => existsb (String.eqb k) (columns df)) p
  end.

(** The writers do not raise. *)
Definition writers_total (io : Pandas) : Prop :=
  forall df, (exists b, to_csv io df = inr b)
             /\ (exists b, to_excel io df = inr b).

(** The extension, the media type and the download name the exporter
    uses for a target format. *)
Definition new_ext_of (target_format : string) : string :=
  if String.eqb target_format "CSV" then ".csv" else ".xlsx".

Definition mime_of (target_format : string) : string :=
  if String.eqb target_format "CSV" then "text/csv" else xlsx_mime.

(** An element of the turn of the loop for a file named [n] whose
    result is offered as [dn]. *)
Definition of_file (n dn : string) (i : element_id) : Prop :=
  match i with
  | checkbox_id l =>
      l = ("Remove duplicates in " ++ n)%string
      \/ l = ("Fill missing values in " ++ n)%string
      \/ l = ("Show visualization for " ++ n)%string
  | multiselect_id l _ _ => l = ("Select columns for " ++ n)%string
  | download_button_id _ file_name _ => file_name = dn
  | _ => False
  end.

End App.
(* ================================================================== *)
(** ** Sample data *)

Module Samples.

Import Frame App.

Definition num (z : Z) : cell :=
  cell_of_float (PrimFloat.of_uint63 (Uint63.of_Z z)).

(** One numeric column with the values 10, 20, 30 and a hole. *)
Definition scores : DataFrame :=
  {| index := [0; 1; 2; 3];
     series := [ {| label := "score"; kind := number;
                    values := [num 10; num 20; NaN; num 30] |} ] |}.

(** Two columns; rows 0 and 2 are equal, rows 1 and 3 are equal, the
    second column of rows 1 and 3 is missing. *)
Definition people : DataFrame :=
  {| index := [0; 1; 2; 3; 4];
     series := [ {| label := "name"; kind := object;
                    values := [Str "ann"; Str "bob"; Str "ann"; Str "bob";
                               Str "cid"] |};
                 {| label := "age"; kind := number;
                    values := [num 30; NaN; num 30; NaN; num 40] |} ] |}.

(** A header and no row. *)
Definition no_rows : DataFrame :=
  {| index := [];
     series := [ {| label := "name"; kind := object; values := [] |} ] |}.

(** Two rows and no column. *)
Definition no_columns : DataFrame :=
  {| index := [0; 1]; series := [] |}.

(** Rows that differ only where a value is missing. *)
Definition gaps : DataFrame :=
  {| index := [0; 1];
     series := [ {| label := "x"; kind := number;
                    values := [NaN; num 2] |} ] |}.

Definition file (n : string) : UploadedFile :=
  {| name := n; size := 2048; content := [] |}.

(** Readers that parse [b.csv] to a table without rows and every other
    file to [people]; writers that write no byte; a sum that adds the
    entries in row order. *)
Definition io : Pandas :=
  {| read_csv := fun f => if String.eqb (name f) "b.csv"
                          then inr no_rows else inr people;
     read_excel := fun _ => inr people;
     to_csv := fun _ => inr [];
     to_excel := fun _ => inr [];
     nansum := float_sum |}.

(** A session in which every box of the sidebar is ticked. *)
Definition ui_all (files : list UploadedFile) : Session :=
  {| uploaded := files;
     radio_choice := "CSV";
     sidebar_checked := fun _ => true;
     checked := fun _ => false;
     picked := fun _ => None |}.

(** A session in which only the boxes to remove duplicates are
    ticked. *)
Definition ui_dedup : Session :=
  {| uploaded := [];
     radio_choice := "CSV";
     sidebar_checked := fun l => prefix "Remove" l;
     checked := fun _ => false;
     picked := fun _ => None |}.

(** Two rows that differ; a hole in each numeric column. *)
Definition pets : DataFrame :=
  {| index := [0; 1];
     series := [ {| label := "pet"; kind := object;
                    values := [Str "rex"; Str "tom"] |};
                 {| label := "age"; kind := number;
                    values := [num 3; NaN] |};
                 {| label := "weight"; kind := number;
                    values := [NaN; NaN] |} ] |}.

(** Readers and writers that always raise. *)
Definition io_broken : Pandas :=
  {| read_csv := fun _ => inl "No columns to parse from file";
     read_excel := fun _ => inl "File is not a zip file";
     to_csv := fun _ => inl "disk full";
     to_excel := fun _ => inl "No module named 'openpyxl'";
     nansum := float_sum |}.

(** A session in which only the boxes to fill missing values are
    ticked. *)
Definition ui_fill : Session :=
  {| uploaded := [];
     radio_choice := "Excel";
     sidebar_checked := fun l => prefix "Fill" l;
     checked := fun _ => true;
     picked := fun l => Some ["age"; "height"; "name"] |}.

End Samples.

(* ================================================================== *)
(** ** Facts about the string functions *)

Module PyStrFacts.

Import PyStr.
Local Open Scope string_scope.

Example splitext_csv : splitext "sales.csv" = ("sales", ".csv").
Proof. reflexivity. Qed.

Example splitext_two_dots : splitext "a.tar.gz" = ("a.tar", ".gz").
Proof. reflexivity. Qed.

Example splitext_hidden : splitext ".bashrc" = (".bashrc", "").
Proof. reflexivity. Qed.

Example splitext_dir_dot : splitext "dir.d/file" = ("dir.d/file", "").
Proof. reflexivity. Qed.

Example splitext_plain : splitext "data" = ("data", "").
Proof. reflexivity. Qed.

Example replace_all : replace "a.csv.csv" ".csv" ".xlsx" = "a.xlsx.xlsx".
Proof. reflexivity. Qed.

Example replace_empty : replace "ab" "" "-" = "-a-b-".
Proof. reflexivity. Qed.

Example replace_no_overlap : replace "aaa" "aa" "b" = "ba".
Proof. reflexivity. Qed.

Example lower_mixed : lower ".CsV" = ".csv".
Proof. reflexivity. Qed.

Lemma append_nil_r (s : string) : s ++ "" = s.
Proof. induction s as [|c s IH]; simpl; [reflexivity | now rewrite IH]. Qed.

Lemma append_assoc (a b c : string) : (a ++ b) ++ c = a ++ b ++ c.
Proof. induction a as [|x a IH]; simpl; [reflexivity | now rewrite IH]. Qed.

Lemma length_append (a b : string) :
  String.length (a ++ b) = String.length a + String.length b.
Proof. induction a as [|x a IH]; simpl; [reflexivity | now rewrite IH]. Qed.

Lemma slice_to_from (n : nat) (s : string) : slice_to n s ++ slice_from n s = s.
Proof.
  revert s; induction n as [|n IH]; intros [|c s]; simpl; try reflexivity.
  now rewrite IH.
Qed.

Lemma prefix_cons (a b : ascii) (s t : string) :
  prefix (String a s) (String b t) = Ascii.eqb a b && prefix s t.
Proof.
  simpl. destruct (ascii_dec a b) as [->|Hne].
  - now rewrite Ascii.eqb_refl.
  - apply Ascii.eqb_neq in Hne. now rewrite Hne.
Qed.

Lemma prefix_self_app (old t : string) : prefix old (old ++ t) = true.
Proof.
  induction old as [|c old IH]; [now destruct t|].
  change (String c old ++ t) with (String c (old ++ t)).
  now rewrite prefix_cons, Ascii.eqb_refl, IH.
Qed.

(** *** [rfind] *)

Lemma rfind_lower_bound (c : ascii) (s : string) : (-1 <= rfind c s)%Z.
Proof.
  induction s as [|a s IH]; simpl; [lia|].
  destruct (0 <=? rfind c s)%Z eqn:E; [apply Z.leb_le in E; lia|].
  destruct (Ascii.eqb a c); lia.
Qed.

Lemma rfind_absent (c : ascii) (s : string) :
  rfind c s = (-1)%Z -> ~ In c (chars s).
Proof.
  induction s as [|a s IH]; simpl; [tauto|].
  destruct (0 <=? rfind c s)%Z eqn:E.
  - apply Z.leb_le in E. lia.
  - apply Z.leb_gt in E. pose proof (rfind_lower_bound c s) as Hlb.
    destruct (Ascii.eqb a c) eqn:Eac; [lia|]. intros _ [Heq|Hin].
    + subst a. now rewrite Ascii.eqb_refl in Eac.
    + apply IH; [lia | assumption].
Qed.

(** From the last occurrence on, the string is [c] followed by
    characters other than [c]. *)
Lemma rfind_slice (c : ascii) (s : string) :
  (0 <= rfind c s)%Z ->
  exists rest, slice_from (Z.to_nat (rfind c s)) s = String c rest
               /\ ~ In c (chars rest).
Proof.
  induction s as [|a s IH]; simpl; [lia|].
  destruct (0 <=? rfind c s)%Z eqn:E.
  - apply Z.leb_le in E. intros _. destruct (IH E) as [rest [Hs Hn]].
    exists rest. split; [|assumption].
    replace (Z.to_nat (rfind c s + 1)) with (S (Z.to_nat (rfind c s))) by lia.
    exact Hs.
  - apply Z.leb_gt in E. pose proof (rfind_lower_bound c s) as Hlb.
    destruct (Ascii.eqb a c) eqn:Eac; [|lia]. intros _.
    apply Ascii.eqb_eq in Eac. subst a. exists s. split; [reflexivity|].
    apply rfind_absent. lia.
Qed.

(** *** [splitext] *)

Lemma splitext_concat (p : string) : fst (splitext p) ++ snd (splitext p) = p.
Proof.
  unfold splitext.
  destruct (rfind "." p >? rfind "/" p)%Z; simpl; [|apply append_nil_r].
  destruct (has_name_before_dot _ _ _); simpl;
    [apply slice_to_from | apply append_nil_r].
Qed.

(** An extension is empty or one dot followed by characters other than
    the dot. *)
Lemma splitext_ext_shape (p : string) :
  snd (splitext p) = ""
  \/ exists rest, snd (splitext p) = String "." rest
                  /\ ~ In "."%char (chars rest).
Proof.
  unfold splitext.
  destruct (rfind "." p >? rfind "/" p)%Z eqn:E; simpl; [|now left].
  destruct (has_name_before_dot _ _ _); simpl; [|now left].
  right. apply rfind_slice.
  apply Z.gtb_lt in E. pose proof (rfind_lower_bound "/" p). lia.
Qed.

Lemma no_dot_no_extension (p : string) :
  ~ In "."%char (chars p) -> snd (splitext p) = "".
Proof.
  intros Hn. destruct (splitext_ext_shape p) as [H|[rest [H _]]]; [exact H|].
  exfalso. apply Hn. rewrite <- (splitext_concat p), H.
  generalize (fst (splitext p)) as r. induction r as [|c r IH]; simpl; auto.
Qed.

(** *** [replace] *)

Lemma replace_scan_skip (old new u t : string) :
  replace_scan old new (String.length u) (u ++ t) = replace_scan old new 0 t.
Proof.
  induction u as [|c u IH]; simpl; [|exact IH].
  destruct t; reflexivity.
Qed.

Lemma replace_scan_occurrence (c : ascii) (old new t : string) :
  replace_scan (String c old) new 0 (String c old ++ t)
  = new ++ replace_scan (String c old) new 0 t.
Proof.
  change (String c old ++ t) with (String c (old ++ t)).
  cbn [replace_scan].
  change (String c (old ++ t)) with (String c old ++ t).
  rewrite prefix_self_app.
  replace (String.length (String c old) - 1) with (String.length old)
    by (simpl; lia).
  now rewrite replace_scan_skip.
Qed.

Lemma replace_scan_mismatch (old new : string) (c : ascii) (s : string) :
  prefix old (String c s) = false ->
  replace_scan old new 0 (String c s) = String c (replace_scan old new 0 s).
Proof. intros H. cbn [replace_scan]. now rewrite H. Qed.

Lemma occurs_cons (old : string) (c : ascii) (s : string) :
  occurs old (String c s) = false ->
  prefix old (String c s) = false /\ occurs old s = false.
Proof. simpl occurs. apply orb_false_elim. Qed.

Lemma replace_scan_absent (old new s : string) :
  occurs old s = false -> replace_scan old new 0 s = s.
Proof.
  induction s as [|c s IH]; [reflexivity|].
  intros H. apply occurs_cons in H as [Hp Ho].
  rewrite replace_scan_mismatch by assumption. now rewrite IH.
Qed.

(** A match of [r] that starts inside [q] and runs past its end reads
    the character that follows [q]. *)
Lemma prefix_straddle (r q x : string) (d : ascii) :
  prefix r (q ++ String d x) = true ->
  prefix r q = true \/ In d (chars r).
Proof.
  revert r. induction q as [|c q IH]; intros [|a r]; simpl; auto.
  - destruct (ascii_dec a d) as [->|]; [auto | discriminate].
  - destruct (ascii_dec a c) as [->|]; [|discriminate].
    intros H. destruct (IH _ H); auto.
Qed.

Lemma prefix_before_extension (rest q t : string) (c : ascii) :
  ~ In "."%char (chars rest) ->
  prefix (String "." rest) (String c q) = false ->
  prefix (String "." rest) (String c q ++ String "." rest ++ t) = false.
Proof.
  intros Hn Hp.
  destruct (prefix (String "." rest) (String c q ++ String "." rest ++ t))
    eqn:E; [|reflexivity].
  exfalso.
  change (String c q ++ String "." rest ++ t)
    with (String c (q ++ String "." (rest ++ t))) in E.
  rewrite prefix_cons in E. rewrite prefix_cons in Hp.
  apply andb_true_iff in E as [Ec Er]. rewrite Ec in Hp. simpl in Hp.
  apply prefix_straddle in Er as [Er|Er]; [congruence | contradiction].
Qed.

(** What precedes an occurrence of the extension is copied, and the
    occurrence is replaced. *)
Lemma replace_scan_piece (rest new p t : string) :
  ~ In "."%char (chars rest) ->
  occurs (String "." rest) p = false ->
  replace_scan (String "." rest) new 0 (p ++ String "." rest ++ t)
  = p ++ new ++ replace_scan (String "." rest) new 0 t.
Proof.
  intros Hn. induction p as [|c p IH]; intros Ho.
  - apply replace_scan_occurrence.
  - apply occurs_cons in Ho as [Hp Ho].
    change (String c p ++ String "." rest ++ t)
      with (String c (p ++ String "." rest ++ t)).
    rewrite replace_scan_mismatch.
    + rewrite IH by assumption. reflexivity.
    + now apply prefix_before_extension.
Qed.

(** Replacing an extension in a name cut at its occurrences puts the
    new extension between the pieces. *)
Lemma replace_scan_join (rest new : string) (pieces : list string) :
  ~ In "."%char (chars rest) ->
  Forall (fun p => occurs (String "." rest) p = false) pieces ->
  replace_scan (String "." rest) new 0 (join (String "." rest) pieces)
  = join new pieces.
Proof.
  intros Hn. induction pieces as [|p ps IH]; intros HF; [reflexivity|].
  inversion HF as [|? ? Hp Hps]; subst.
  destruct ps as [|q ps].
  - simpl. now apply replace_scan_absent.
  - change (join (String "." rest) (p :: q :: ps))
      with (p ++ String "." rest ++ join (String "." rest) (q :: ps)).
    rewrite replace_scan_piece by assumption.
    rewrite IH by assumption. reflexivity.
Qed.

Lemma replace_interleave_closed (new s : string) :
  replace_interleave new s
  = new ++ String.concat "" (map (fun c => String c new) (chars s)).
Proof.
  induction s as [|c s IH]; simpl; [now rewrite append_nil_r|].
  rewrite IH. f_equal. destruct (chars s) as [|d l] eqn:E.
  - simpl. now rewrite !append_nil_r.
  - reflexivity.
Qed.

Lemma replace_interleave_length (new s : string) :
  String.length (replace_interleave new s)
  = String.length s + (String.length s + 1) * String.length new.
Proof.
  induction s as [|c s IH]; simpl; [lia|].
  rewrite length_append. simpl. rewrite IH. lia.
Qed.

End PyStrFacts.

(* ================================================================== *)
(** ** Facts about the dataframe operations *)

Module FrameFacts.

Import Frame.

(** *** Equality of cells and rows *)

(** Two numbers with the same bits are the same number. *)
Lemma float64_eq (x y : float64) : bits x = bits y -> x = y.
Proof.
  destruct x as [x Hx], y as [y Hy]. simpl. intros ->. f_equal.
  apply UIP_dec. apply bool_dec.
Qed.

Lemma cell_eqb_eq (a b : cell) : cell_eqb a b = true <-> a = b.
Proof.
  destruct a as [x|s|], b as [y|t|]; simpl; split; intros H;
    try discriminate; try reflexivity.
  - f_equal. now apply float64_eq, FloatAxioms.Leibniz.eqb_spec.
  - injection H as ->. now apply FloatAxioms.Leibniz.eqb_spec.
  - f_equal. now apply String.eqb_eq.
  - injection H as ->. apply String.eqb_refl.
Qed.

Lemma row_eqb_eq (r s : list cell) : row_eqb r s = true <-> r = s.
Proof.
  revert s. induction r as [|a r IH]; intros [|b s]; simpl; split; intros H;
    try discriminate; try reflexivity.
  - apply andb_true_iff in H as [Hab Hrs].
    apply cell_eqb_eq in Hab. apply IH in Hrs. congruence.
  - injection H as -> ->. apply andb_true_iff. split.
    + now apply cell_eqb_eq.
    + now apply IH.
Qed.

Lemma mem_row_In (r : list cell) (l : list (list cell)) :
  existsb (row_eqb r) l = true <-> In r l.
Proof.
  rewrite existsb_exists. split.
  - intros [x [Hin Heq]]. apply row_eqb_eq in Heq. now subst.
  - intros Hin. exists r. split; [assumption | now apply row_eqb_eq].
Qed.

Lemma mem_row_ext (r : list cell) (l l' : list (list cell)) :
  (forall x, In x l <-> In x l') ->
  existsb (row_eqb r) l = existsb (row_eqb r) l'.
Proof.
  intros H. apply eq_true_iff_eq. rewrite !mem_row_In. apply H.
Qed.

(** *** Boolean indexing *)

Lemma compress_length_le {A : Type} (mask : list bool) (l : list A) :
  List.length (compress mask l) <= List.length l.
Proof.
  revert l. induction mask as [|b m IH]; intros [|x l]; simpl; try lia.
  specialize (IH l). destruct b; simpl; lia.
Qed.

Lemma compress_length_eq {A B : Type} (mask : list bool) (l : list A)
  (l' : list B) :
  List.length l = List.length l' ->
  List.length (compress mask l) = List.length (compress mask l').
Proof.
  revert l l'. induction mask as [|b m IH]; intros [|x l] [|y l'] H;
    simpl in *; try discriminate; try reflexivity.
  injection H as H. destruct b; simpl; auto.
Qed.

Lemma compress_all {A : Type} (l : list A) :
  compress (repeat true (List.length l)) l = l.
Proof. induction l as [|x l IH]; simpl; [reflexivity | now rewrite IH]. Qed.

(** *** Rows and columns *)

Lemma rows_of_length (n : nat) (cols : list (list cell)) :
  List.length (rows_of n cols) = n.
Proof.
  revert cols. induction n as [|n IH]; intros cols; simpl;
    [reflexivity | now rewrite IH].
Qed.

Lemma rows_length (df : DataFrame) : List.length (rows df) = len df.
Proof. apply rows_of_length. Qed.

(** Dropping rows from every column drops them from the rows. *)
Lemma rows_of_compress (mask : list bool) (idx : list nat)
  (cols : list (list cell)) :
  List.length idx = List.length mask ->
  Forall (fun c => List.length c = List.length mask) cols ->
  rows_of (List.length (compress mask idx)) (map (compress mask) cols)
  = compress mask (rows_of (List.length mask) cols).
Proof.
  revert idx cols. induction mask as [|b m IH]; intros idx cols Hi Hc.
  - destruct idx; reflexivity.
  - destruct idx as [|i idx]; [discriminate|]. injection Hi as Hi.
    assert (Htl : Forall (fun c => List.length c = List.length m)
                         (map (@tl cell) cols)).
    { apply Forall_forall. intros c Hin. apply in_map_iff in Hin
        as [c0 [<- Hin0]].
      rewrite Forall_forall in Hc. specialize (Hc _ Hin0).
      destruct c0; simpl in *; [discriminate | lia]. }
    assert (Hmap : forall b0,
               map (compress (b0 :: m)) cols
               = map (fun c => if b0 then hd NaN c :: compress m (tl c)
                               else compress m (tl c)) cols).
    { intros b0. apply map_ext_in. intros c Hin.
      rewrite Forall_forall in Hc. specialize (Hc _ Hin).
      destruct c; simpl in *; [discriminate | reflexivity]. }
    rewrite Hmap. simpl. destruct b; simpl.
    + f_equal.
      * rewrite map_map. reflexivity.
      * rewrite <- (IH idx (map (@tl cell) cols) Hi Htl).
        f_equal. rewrite !map_map. reflexivity.
    + rewrite <- (IH idx (map (@tl cell) cols) Hi Htl).
      f_equal. rewrite !map_map. reflexivity.
Qed.

Lemma getitem_mask_columns (df : DataFrame) (mask : list bool) :
  columns (getitem_mask df mask) = columns df.
Proof. unfold columns, getitem_mask. simpl. now rewrite map_map. Qed.

Lemma getitem_mask_rows (df : DataFrame) (mask : list bool) :
  wf df -> List.length mask = len df ->
  rows (getitem_mask df mask) = compress mask (rows df).
Proof.
  intros [Hlen _] Hm. unfold rows, len, getitem_mask. simpl.
  rewrite map_map. simpl.
  rewrite <- (map_map values (compress mask)).
  fold (len df). rewrite <- Hm. apply rows_of_compress.
  - now rewrite Hm.
  - apply Forall_forall. intros c Hin. apply in_map_iff in Hin
      as [s [<- Hin]].
    rewrite Forall_forall in Hlen. rewrite Hm. now apply Hlen.
Qed.

Lemma getitem_mask_wf (df : DataFrame) (mask : list bool) :
  wf df -> wf (getitem_mask df mask).
Proof.
  intros [Hlen Hnd]. split.
  - apply Forall_forall. intros s Hin. unfold getitem_mask in Hin.
    simpl in Hin. apply in_map_iff in Hin as [s0 [<- Hin]]. simpl.
    unfold len. simpl. apply compress_length_eq.
    rewrite Forall_forall in Hlen. now apply Hlen.
  - now rewrite getitem_mask_columns.
Qed.

Lemma getitem_mask_all (df : DataFrame) :
  wf df -> getitem_mask df (repeat true (len df)) = df.
Proof.
  intros [Hlen _]. destruct df as [idx ss]. unfold getitem_mask, len in *.
  simpl in *. f_equal.
  - apply compress_all.
  - rewrite <- (map_id ss) at 2. apply map_ext_in. intros s Hin.
    rewrite Forall_forall in Hlen. rewrite <- (Hlen _ Hin).
    rewrite compress_all. now destruct s.
Qed.

(** *** Duplicates *)

Lemma duplicated_from_length (seen rs : list (list cell)) :
  List.length (duplicated_from seen rs) = List.length rs.
Proof.
  revert seen. induction rs as [|r rs IH]; intros seen; simpl;
    [reflexivity|].
  destruct (existsb (row_eqb r) seen); simpl; now rewrite IH.
Qed.

Lemma map_nth_prefix {A : Type} (d : A) (pre rest : list A) :
  map (fun j => nth j (pre ++ rest) d) (seq 0 (List.length pre)) = pre.
Proof.
  induction pre as [|x pre IH]; [reflexivity|].
  cbn [List.length]. rewrite <- cons_seq, <- seq_shift. simpl.
  rewrite map_map. now rewrite IH.
Qed.

Lemma existsb_nth_prefix {A : Type} (f : A -> bool) (d : A)
  (pre rest : list A) :
  existsb (fun j => f (nth j (pre ++ rest) d)) (seq 0 (List.length pre))
  = existsb f pre.
Proof.
  rewrite <- (map_nth_prefix d pre rest) at 2.
  generalize (seq 0 (List.length pre)) as js.
  induction js as [|j js IH]; simpl; [reflexivity | now rewrite IH].
Qed.

Lemma first_occurrence_after (pre rs : list (list cell)) (r : list cell) :
  first_occurrence (pre ++ r :: rs) (List.length pre)
  = negb (existsb (row_eqb r) pre).
Proof.
  unfold first_occurrence. rewrite nth_middle.
  now rewrite (existsb_nth_prefix (row_eqb r) [] pre (r :: rs)).
Qed.

(** The scan marks the rows the specification's mask drops: [pre] is
    what was read so far, [seen] one row per distinct row of [pre]. *)
Lemma duplicated_from_first_occurrences (rs pre seen : list (list cell)) :
  (forall x, In x seen <-> In x pre) ->
  map negb (duplicated_from seen rs)
  = map (first_occurrence (pre ++ rs))
        (seq (List.length pre) (List.length rs)).
Proof.
  revert pre seen. induction rs as [|r rs IH]; intros pre seen Hseen;
    [reflexivity|].
  cbn [List.length seq map duplicated_from].
  rewrite first_occurrence_after, (mem_row_ext r pre seen)
    by (intros x; symmetry; apply Hseen).
  assert (Hshift : forall seen',
             (forall x, In x seen' <-> In x (pre ++ [r])) ->
             map negb (duplicated_from seen' rs)
             = map (first_occurrence (pre ++ r :: rs))
                   (seq (S (List.length pre)) (List.length rs))).
  { intros seen' H'. rewrite (IH (pre ++ [r]) seen' H').
    rewrite <- app_assoc, length_app. simpl.
    now rewrite Nat.add_1_r. }
  destruct (existsb (row_eqb r) seen) eqn:E; simpl; f_equal;
    apply Hshift; intros x; rewrite in_app_iff; simpl.
  - apply mem_row_In in E. rewrite Hseen. split; [tauto|].
    intros [H|[<-|[]]]; [assumption | now apply Hseen].
  - rewrite Hseen. tauto.
Qed.

Lemma duplicated_first_occurrences (rs : list (list cell)) :
  map negb (duplicated_from [] rs) = first_occurrences rs.
Proof.
  apply (duplicated_from_first_occurrences rs [] []). tauto.
Qed.

(** Nothing is marked in what a scan kept. *)
Lemma duplicated_from_kept (rs seen : list (list cell)) :
  let kept := compress (map negb (duplicated_from seen rs)) rs in
  duplicated_from seen kept = repeat false (List.length kept).
Proof.
  revert seen. induction rs as [|r rs IH]; intros seen; [reflexivity|].
  cbn [duplicated_from].
  destruct (existsb (row_eqb r) seen) eqn:E; cbn -[duplicated_from].
  - apply IH.
  - cbn [duplicated_from]. rewrite E. f_equal. apply IH.
Qed.

Lemma first_occurrences_length (rs : list (list cell)) :
  List.length (first_occurrences rs) = List.length rs.
Proof. unfold first_occurrences. now rewrite length_map, length_seq. Qed.

Lemma getitem_mask_no_rows (df : DataFrame) :
  wf df -> len df = 0 -> getitem_mask df [] = df.
Proof.
  intros [Hlen _] H0. destruct df as [idx ss]. unfold getitem_mask, len in *.
  simpl in *. destruct idx; [|discriminate]. f_equal.
  rewrite <- (map_id ss) at 2. apply map_ext_in. intros s Hin.
  rewrite Forall_forall in Hlen. specialize (Hlen _ Hin).
  destruct s as [l k v]. simpl in *. destruct v; [reflexivity|discriminate].
Qed.

(** [drop_duplicates] keeps the first occurrences, for a frame with a
    column. *)
Lemma drop_duplicates_first_occurrences (df : DataFrame) :
  wf df -> series df <> [] ->
  drop_duplicates df = getitem_mask df (first_occurrences (rows df)).
Proof.
  intros Hwf Hcol. unfold drop_duplicates, duplicated.
  destruct (empty df) eqn:E.
  - unfold empty in E. apply orb_true_iff in E as [E|E].
    + apply Nat.eqb_eq in E. unfold rows. rewrite E. simpl.
      symmetry. now apply getitem_mask_no_rows.
    + apply Nat.eqb_eq in E. destruct (series df); [congruence|discriminate].
  - now rewrite duplicated_first_occurrences.
Qed.

Lemma drop_duplicates_columns (df : DataFrame) :
  columns (drop_duplicates df) = columns df.
Proof.
  unfold drop_duplicates. destruct (empty df); [reflexivity|].
  apply getitem_mask_columns.
Qed.

Lemma drop_duplicates_wf (df : DataFrame) : wf df -> wf (drop_duplicates df).
Proof.
  unfold drop_duplicates. destruct (empty df); [auto|].
  apply getitem_mask_wf.
Qed.

Lemma drop_duplicates_len (df : DataFrame) :
  len (drop_duplicates df) <= len df.
Proof.
  unfold drop_duplicates. destruct (empty df); [lia|].
  unfold len, getitem_mask. simpl. apply compress_length_le.
Qed.

Lemma drop_duplicates_idempotent (df : DataFrame) :
  wf df -> drop_duplicates (drop_duplicates df) = drop_duplicates df.
Proof.
  intros Hwf. destruct (empty df) eqn:E.
  - unfold drop_duplicates. now rewrite !E.
  - set (m := map negb (duplicated_from [] (rows df))).
    assert (Hd : drop_duplicates df = getitem_mask df m).
    { unfold drop_duplicates, duplicated. now rewrite E. }
    assert (Hm : List.length m = len df).
    { unfold m. now rewrite length_map, duplicated_from_length, rows_length. }
    pose proof (getitem_mask_wf df m Hwf) as Hwf1.
    rewrite Hd. unfold drop_duplicates, duplicated.
    destruct (empty (getitem_mask df m)) eqn:E1; [reflexivity|].
    rewrite (getitem_mask_rows df m Hwf Hm). unfold m.
    rewrite duplicated_from_kept. fold m.
    rewrite <- (getitem_mask_rows df m Hwf Hm), rows_length.
    replace (map negb (repeat false (len (getitem_mask df m))))
      with (repeat true (len (getitem_mask df m)))
      by (now rewrite map_repeat).
    now apply getitem_mask_all.
Qed.

(** *** Columns by label *)

Lemma label_injective (l : list Series) (a b : Series) :
  NoDup (map label l) -> In a l -> In b l -> label a = label b -> a = b.
Proof.
  induction l as [|x l IH]; simpl; [tauto|].
  intros Hnd Ha Hb Hab. inversion Hnd as [|? ? Hx Hl]; subst.
  destruct Ha as [<-|Ha], Hb as [<-|Hb]; auto.
  - exfalso. apply Hx. rewrite Hab. now apply in_map.
  - exfalso. apply Hx. rewrite <- Hab. now apply in_map.
Qed.

Lemma find_label_absent (l : list Series) (k : string) :
  ~ In k (map label l) -> find (fun s => String.eqb (label s) k) l = None.
Proof.
  induction l as [|x l IH]; simpl; [reflexivity|]. intros Hn.
  destruct (String.eqb (label x) k) eqn:E.
  - apply String.eqb_eq in E. tauto.
  - apply IH. tauto.
Qed.

Lemma find_label_present (l : list Series) (s : Series) :
  NoDup (map label l) -> In s l ->
  find (fun s' => String.eqb (label s') (label s)) l = Some s.
Proof.
  induction l as [|x l IH]; simpl; [tauto|]. intros Hnd Hin.
  inversion Hnd as [|? ? Hx Hl]; subst.
  destruct (String.eqb (label x) (label s)) eqn:E.
  - apply String.eqb_eq in E. f_equal.
    apply (label_injective (x :: l)); simpl; auto.
  - destruct Hin as [->|Hin]; [now rewrite String.eqb_refl in E | auto].
Qed.

Lemma filter_label_absent (l : list Series) (k : string) :
  ~ In k (map label l) -> filter (fun s => String.eqb (label s) k) l = [].
Proof.
  induction l as [|x l IH]; simpl; [reflexivity|]. intros Hn.
  destruct (String.eqb (label x) k) eqn:E.
  - apply String.eqb_eq in E. tauto.
  - apply IH. tauto.
Qed.

Lemma filter_label_present (l : list Series) (s : Series) :
  NoDup (map label l) -> In s l ->
  filter (fun s' => String.eqb (label s') (label s)) l = [s].
Proof.
  induction l as [|x l IH]; simpl; [tauto|]. intros Hnd Hin.
  inversion Hnd as [|? ? Hx Hl]; subst.
  destruct (String.eqb (label x) (label s)) eqn:E.
  - apply String.eqb_eq in E.
    assert (x = s) as -> by (apply (label_injective (x :: l)); simpl; auto).
    now rewrite filter_label_absent.
  - destruct Hin as [->|Hin]; [now rewrite String.eqb_refl in E | auto].
Qed.

(** Keeping some of the columns keeps their labels distinct. *)
Lemma labels_of_filter_NoDup (keep : Series -> bool) (ss : list Series) :
  NoDup (map label ss) -> NoDup (map label (filter keep ss)).
Proof.
  intros Hnd. induction ss as [|s ss IH]; [exact Hnd|].
  apply NoDup_cons_iff in Hnd as [Hs Hss]. simpl.
  destruct (keep s); [|now apply IH].
  simpl. apply NoDup_cons; [|now apply IH].
  intros Hin. apply Hs. apply in_map_iff in Hin as [c [Hc Hin]].
  apply filter_In in Hin. rewrite <- Hc. apply in_map. tauto.
Qed.

(** [df[keys]] succeeds when every key is a column. *)
Lemma getitem_list_present (df : DataFrame) (keys : list string) :
  (forall k, In k keys -> In k (columns df)) ->
  getitem_list df keys
  = inr {| index := index df;
           series := flat_map
                       (fun k => filter (fun s => String.eqb (label s) k)
                                        (series df))
                       keys |}.
Proof.
  intros H. unfold getitem_list.
  replace (filter (fun k => negb (existsb (String.eqb k) (columns df))) keys)
    with (@nil string); [reflexivity|].
  symmetry. induction keys as [|k keys IH]; [reflexivity|]. simpl.
  assert (Hk : existsb (String.eqb k) (columns df) = true).
  { apply existsb_exists. exists k. split; [apply H; now left|].
    apply String.eqb_refl. }
  rewrite Hk. simpl. apply IH. intros k' Hin. apply H. now right.
Qed.

Lemma flat_map_labels (l sub : list Series) :
  NoDup (map label l) -> (forall s, In s sub -> In s l) ->
  flat_map (fun k => filter (fun s => String.eqb (label s) k) l)
           (map label sub)
  = sub.
Proof.
  intros Hnd. induction sub as [|s sub IH]; intros Hsub; [reflexivity|].
  simpl. rewrite filter_label_present by (auto; apply Hsub; now left).
  simpl. f_equal. apply IH. intros s' Hin. apply Hsub. now right.
Qed.

(** The numeric columns can always be taken out of a frame. *)
Lemma getitem_numeric_cols_ok (df : DataFrame) :
  exists sub, getitem_list df (columns (select_dtypes_number df)) = inr sub
              /\ index sub = index df.
Proof.
  eexists. split.
  - apply getitem_list_present. intros k Hin. unfold columns in *.
    simpl in Hin. apply in_map_iff in Hin as [s [<- Hin]].
    apply filter_In in Hin as [Hin _]. now apply in_map.
  - reflexivity.
Qed.

Lemma getitem_numeric_cols (df : DataFrame) :
  NoDup (columns df) ->
  getitem_list df (columns (select_dtypes_number df))
  = inr (select_dtypes_number df).
Proof.
  intros Hnd. rewrite getitem_list_present.
  - unfold select_dtypes_number, columns. simpl.
    rewrite flat_map_labels; auto.
    intros s Hin. now apply filter_In in Hin.
  - intros k Hin. unfold columns in *. simpl in Hin.
    apply in_map_iff in Hin as [s [<- Hin]].
    apply filter_In in Hin as [Hin _]. now apply in_map.
Qed.

(** *** Means and fills *)

Section Mean.

Variable nansum : list cell -> float.

Lemma lookup_frame_mean (l : list Series) (k : string) :
  lookup k (map (fun s => (label s, mean nansum (values s))) l)
  = option_map (fun s => mean nansum (values s))
               (find (fun s => String.eqb (label s) k) l).
Proof.
  induction l as [|x l IH]; simpl; [reflexivity|].
  destruct (String.eqb (label x) k); [reflexivity | exact IH].
Qed.

(** Filling a frame with its own means fills every column with its
    own mean. *)
Lemma fillna_frame_mean (d : DataFrame) :
  NoDup (columns d) ->
  fillna d (frame_mean nansum d)
  = {| index := index d; series := map (fill_with_mean nansum) (series d) |}.
Proof.
  intros Hnd. unfold fillna, frame_mean. f_equal.
  apply map_ext_in. intros s Hin.
  rewrite lookup_frame_mean, find_label_present by assumption.
  reflexivity.
Qed.

Lemma set_column_index (df : DataFrame) (k : string) (s : Series) :
  index (set_column df k s) = index df.
Proof. unfold set_column. now destruct (existsb _ _). Qed.

Lemma setitem_frame_index (keys : list string) (value df : DataFrame) :
  index (setitem_frame df keys value) = index df.
Proof.
  unfold setitem_frame. generalize (combine keys (series value)) as ks.
  intros ks. revert df. induction ks as [|[k s] ks IH]; intros df; simpl;
    [reflexivity|].
  now rewrite IH, set_column_index.
Qed.

(** Assigning filled columns back, label by label. *)
Lemma setitem_filled (todo : list Series) (d : DataFrame) :
  NoDup (map label todo) ->
  (forall s, In s todo -> In (label s) (columns d)) ->
  fold_left (fun d' ks => set_column d' (fst ks) (snd ks))
            (combine (map label todo) (map (fill_with_mean nansum) todo)) d
  = {| index := index d;
       series :=
         map (fun c =>
                match find (fun s => String.eqb (label s) (label c)) todo with
                | Some s => {| label := label c; kind := kind s;
                               values := values (fill_with_mean nansum s) |}
                | None => c
                end)
             (series d) |}.
Proof.
  revert d. induction todo as [|s todo IH]; intros d Hnd Hin.
  - simpl. destruct d as [idx ss]. simpl. now rewrite map_id.
  - inversion Hnd as [|? ? Hs Hnd']; subst.
    cbn [map combine fold_left fst snd].
    assert (Hex : existsb (String.eqb (label s)) (columns d) = true).
    { apply existsb_exists. exists (label s). split;
        [apply Hin; now left | apply String.eqb_refl]. }
    unfold set_column at 2. rewrite Hex.
    rewrite IH; [|assumption|].
    + cbn [index series]. f_equal. rewrite map_map.
      apply map_ext. intros c. cbn [find].
      rewrite (String.eqb_sym (label s) (label c)).
      destruct (String.eqb (label c) (label s)) eqn:E; [|reflexivity].
      apply String.eqb_eq in E. cbn [label].
      rewrite find_label_absent; [reflexivity|]. now rewrite E.
    + intros s' Hs'. unfold columns. cbn [series]. rewrite map_map.
      assert (Hlab : forall c : Series,
                 label (if String.eqb (label c) (label s)
                        then {| label := label c;
                                kind := kind (fill_with_mean nansum s);
                                values := values (fill_with_mean nansum s) |}
                        else c) = label c)
        by (intros c; now destruct (String.eqb _ _)).
      rewrite (map_ext _ _ Hlab). apply Hin. now right.
Qed.

(** The assignment of [clean_data], on a frame without repeated
    labels, is the fill of the specification. *)
Lemma setitem_fill_numeric (df : DataFrame) :
  NoDup (columns df) ->
  setitem_frame df (columns (select_dtypes_number df))
    (fillna (select_dtypes_number df)
       (frame_mean nansum (select_dtypes_number df)))
  = fill_numeric nansum df.
Proof.
  intros Hnd. set (nums := filter (fun s => is_number (kind s)) (series df)).
  assert (Hnums : NoDup (map label nums)) by now apply labels_of_filter_NoDup.
  rewrite fillna_frame_mean by exact Hnums.
  unfold setitem_frame, columns, select_dtypes_number. cbn [series index].
  fold nums. rewrite setitem_filled.
  - unfold fill_numeric. f_equal. apply map_ext_in. intros c Hc.
    destruct (is_number (kind c)) eqn:Ek.
    + rewrite find_label_present; [reflexivity | assumption|].
      apply filter_In. now split.
    + rewrite find_label_absent; [reflexivity|]. intros Hin.
      apply in_map_iff in Hin as [s [Hl Hs]].
      apply filter_In in Hs as [Hs Hk].
      assert (s = c) by (apply (label_injective (series df)); auto).
      subst. congruence.
  - exact Hnums.
  - intros s Hs. apply filter_In in Hs as [Hs _]. now apply in_map.
Qed.

End Mean.

Lemma fillna_values_nth (v : cell) (vals : list cell) (i : nat) :
  i < List.length vals ->
  nth i (fillna_values v vals) NaN
  = match nth i vals NaN with NaN => v | c => c end.
Proof.
  revert i. induction vals as [|c vals IH]; intros [|i] Hi; simpl in *;
    try lia; [now destruct c|].
  apply IH. lia.
Qed.


Lemma fillna_values_missing (vals : list cell) :
  fillna_values NaN vals = vals.
Proof.
  induction vals as [|c vals IH]; [reflexivity|]. simpl. rewrite IH.
  now destruct c.
Qed.

(** *** Selection *)

Lemma unique_from_In (seen l : list string) (x : string) :
  In x (unique_from seen l) <-> In x l /\ ~ In x seen.
Proof.
  revert seen. induction l as [|y l IH]; intros seen; simpl; [tauto|].
  destruct (existsb (String.eqb y) seen) eqn:E.
  - apply existsb_exists in E as [z [Hz Heq]]. apply String.eqb_eq in Heq.
    subst z. rewrite IH. split; [tauto|].
    intros [[->|Hin] Hn]; [contradiction | tauto].
  - assert (Hy : ~ In y seen).
    { intros Hin. apply Bool.not_true_iff_false in E. apply E.
      apply existsb_exists. exists y. split; [assumption|].
      apply String.eqb_refl. }
    simpl. rewrite IH. simpl. split.
    + intros [->|[Hin Hn]]; [tauto|]. split; [tauto|]. tauto.
    + intros [[->|Hin] Hn]; [tauto|].
      destruct (string_dec y x) as [->|Hne]; [tauto|]. right. split; tauto.
Qed.

Lemma unique_In (l : list string) (x : string) : In x (unique l) <-> In x l.
Proof. unfold unique. rewrite unique_from_In. simpl. tauto. Qed.

Lemma getitem_list_selection (df : DataFrame) (keys : list string) :
  NoDup (columns df) ->
  (forall k, In k keys -> In k (columns df)) ->
  exists r, getitem_list df keys = inr r
            /\ index r = index df
            /\ columns r = keys
            /\ map Some (series r) = map (column df) keys.
Proof.
  intros Hnd Hin. rewrite getitem_list_present by assumption.
  eexists. split; [reflexivity|]. split; [reflexivity|].
  unfold columns, column. cbn [series].
  induction keys as [|k keys IH]; [split; reflexivity|].
  assert (Hk : In k (columns df)) by (apply Hin; now left).
  unfold columns in Hk. apply in_map_iff in Hk as [s [<- Hs]].
  cbn [flat_map map].
  rewrite filter_label_present, find_label_present by assumption.
  destruct IH as [IH1 IH2]; [intros k' Hk'; apply Hin; now right|].
  cbn [app map]. now rewrite IH1, IH2.
Qed.

Lemma columns_by_label (df : DataFrame) :
  NoDup (columns df) -> map Some (series df) = map (column df) (columns df).
Proof.
  intros Hnd. unfold columns, column. rewrite map_map.
  apply map_ext_in. intros s Hs. now rewrite find_label_present.
Qed.

End FrameFacts.

(* ================================================================== *)
(** ** Running a computation *)

Import PyStr Frame App PyStrFacts FrameFacts.

Lemma elements_app (t t' : list event) :
  elements (t ++ t') = elements t ++ elements t'.
Proof. unfold elements. apply flat_map_app. Qed.

Lemma prepend_pair {A : Type} (t t' : list event) (r : error + A) :
  prepend t (t', r) = (t ++ t', r).
Proof. reflexivity. Qed.

Lemma prepend_nil {A : Type} (r : Result A) : prepend [] r = r.
Proof. now destruct r. Qed.

Lemma bind_ret {A B : Type} (a : A) (k : A -> M B) (reg : list element_id) :
  bind (ret a) k reg = k a reg.
Proof.
  unfold bind, ret. cbn [elements flat_map]. rewrite app_nil_r.
  now destruct (k a reg).
Qed.

Lemma bind_result {A B : Type} (m : M A) (k : A -> M B)
  (reg : list element_id) (t : list event) (a : A) :
  m reg = (t, inr a) -> bind m k reg = prepend t (k a (reg ++ elements t)).
Proof.
  intros H. unfold bind, prepend. rewrite H.
  now destruct (k a (reg ++ elements t)).
Qed.

Lemma bind_raised {A B : Type} (m : M A) (k : A -> M B)
  (reg : list element_id) (t : list event) (e : error) :
  m reg = (t, inl e) -> bind m k reg = (t, inl e).
Proof. intros H. unfold bind. now rewrite H. Qed.

Lemma emit_plain (e : event) (reg : list element_id) :
  element_of e = None -> emit e reg = ([e], inr tt).
Proof. intros H. unfold emit. now rewrite H. Qed.

Lemma emit_fresh (e : event) (i : element_id) (reg : list element_id) :
  element_of e = Some i -> ~ In i reg -> emit e reg = ([e], inr tt).
Proof.
  intros H Hn. unfold emit. rewrite H.
  now destruct (in_dec element_id_eq_dec i reg).
Qed.

Lemma emit_taken (e : event) (i : element_id) (reg : list element_id) :
  element_of e = Some i -> In i reg ->
  emit e reg = ([], inl (StreamlitDuplicateElementId (element_type i))).
Proof.
  intros H Hin. unfold emit. rewrite H.
  now destruct (in_dec element_id_eq_dec i reg).
Qed.

Lemma bind_emit_plain {B : Type} (e : event) (k : unit -> M B)
  (reg : list element_id) :
  element_of e = None -> bind (emit e) k reg = prepend [e] (k tt reg).
Proof.
  intros H. rewrite (bind_result _ _ _ _ _ (emit_plain e reg H)).
  unfold elements. cbn [flat_map]. rewrite H. cbn [app]. now rewrite app_nil_r.
Qed.

Lemma bind_emit_fresh {B : Type} (e : event) (i : element_id)
  (k : unit -> M B) (reg : list element_id) :
  element_of e = Some i -> ~ In i reg ->
  bind (emit e) k reg = prepend [e] (k tt (reg ++ [i])).
Proof.
  intros H Hn. rewrite (bind_result _ _ _ _ _ (emit_fresh e i reg H Hn)).
  unfold elements. cbn [flat_map]. now rewrite H.
Qed.

Lemma bind_lift_inr {A B : Type} (a : A) (k : A -> M B)
  (reg : list element_id) :
  bind (lift (inr a)) k reg = k a reg.
Proof.
  unfold bind, lift. cbn [elements flat_map]. rewrite app_nil_r.
  now destruct (k a reg).
Qed.

(** A checkbox whose label is new in the run. *)
Lemma sidebar_checkbox_fresh (ui : Session) (label : string)
  (reg : list element_id) :
  ~ In (checkbox_id label) reg ->
  sidebar_checkbox ui label reg
  = ([st_sidebar_checkbox label], inr (sidebar_checked ui label)).
Proof.
  intros H. unfold sidebar_checkbox.
  now rewrite (bind_emit_fresh _ (checkbox_id label)).
Qed.

Lemma checkbox_fresh (ui : Session) (label : string) (reg : list element_id) :
  ~ In (checkbox_id label) reg ->
  checkbox ui label reg = ([st_checkbox label], inr (checked ui label)).
Proof.
  intros H. unfold checkbox.
  now rewrite (bind_emit_fresh _ (checkbox_id label)).
Qed.

(** Labels built from different texts, or from different file names,
    are different. *)
Lemma append_injective (p a b : string) :
  (p ++ a)%string = (p ++ b)%string -> a = b.
Proof.
  induction p as [|c p IH]; simpl; [auto|]. intros H. injection H as H. auto.
Qed.

(* ================================================================== *)
(** ** The loader *)

(** The loader creates no element: it does the same in every run. *)
Lemma load_data_any_run (io : Pandas) (file : UploadedFile)
  (reg : list element_id) :
  load_data io file reg = run (load_data io file).
Proof.
  unfold run, load_data.
  destruct (String.eqb _ ".csv");
    [destruct (read_csv io file); reflexivity|].
  destruct (String.eqb _ ".xlsx");
    [destruct (read_excel io file); reflexivity | reflexivity].
Qed.

(** The loader never raises, and shows errors only. *)
Lemma load_data_returns (io : Pandas) (file : UploadedFile) :
  exists t o, run (load_data io file) = (t, inr o)
              /\ downloads t = 0 /\ warnings t = 0 /\ elements t = []
              /\ (forall df, o = Some df -> t = []).
Proof.
  unfold run, load_data.
  destruct (String.eqb _ ".csv").
  - destruct (read_csv io file) as [e|df].
    + eexists _, None. repeat split; discriminate.
    + exists [], (Some df). repeat split.
  - destruct (String.eqb _ ".xlsx").
    + destruct (read_excel io file) as [e|df].
      * eexists _, None. repeat split; discriminate.
      * exists [], (Some df). repeat split.
    + eexists _, None. repeat split; discriminate.
Qed.

(** C7. A file whose extension, lowered, is neither [.csv] nor [.xlsx]
    is not loaded: [load_data] shows the error "Unsupported file type"
    with that extension and returns no table, without calling a reader;
    a file named [report.txt] gives the error with [.txt]. *)
Theorem load_data_unsupported_format (io : Pandas) (file : UploadedFile) :
  let ext := lower (snd (splitext (name file))) in
  ext <> ".csv" -> ext <> ".xlsx" ->
  run (load_data io file)
  = ([st_error ("Unsupported file type: " ++ ext)], inr None)
  /\ (name file = "report.txt" ->
      run (load_data io file)
      = ([st_error "Unsupported file type: .txt"], inr None)).
Proof.
  intros ext Hcsv Hxlsx.
  assert (H : run (load_data io file)
              = ([st_error ("Unsupported file type: " ++ ext)], inr None)).
  { unfold run, load_data. fold ext.
    apply String.eqb_neq in Hcsv. apply String.eqb_neq in Hxlsx.
    now rewrite Hcsv, Hxlsx. }
  split; [exact H|]. intros Hname. rewrite H. unfold ext. now rewrite Hname.
Qed.

Lemma load_data_unsupported_format_witness :
  run (load_data Samples.io (Samples.file "report.txt"))
  = ([st_error "Unsupported file type: .txt"], inr None).
Proof.
  apply (load_data_unsupported_format Samples.io (Samples.file "report.txt"));
    [discriminate | discriminate | reflexivity].
Defined.
(* ================================================================== *)
(** ** The column selector *)

Lemma filter_columns_present (df : DataFrame) (selected : list string) :
  (forall k, In k selected -> In k (columns df)) ->
  exists r, filter_columns df selected = inr r.
Proof.
  intros H. unfold filter_columns.
  destruct (list_eq_dec string_dec selected (columns df)); [now exists df|].
  rewrite (getitem_list_present df selected H).
  destruct (set_eqb selected (columns df)); eexists; reflexivity.
Qed.

(** The selector when its multiselect is new in the run. *)
Lemma handle_column_selection_fresh (ui : Session) (df : DataFrame)
  (file_name : string) (reg : list element_id) :
  ~ In (multiselect_id ("Select columns for " ++ file_name)
          (columns df) (columns df)) reg ->
  handle_column_selection ui df file_name reg
  = ([st_multiselect ("Select columns for " ++ file_name)
        (columns df) (columns df)],
     match filter_columns df (chosen_columns ui df file_name) with
     | inl e => inl (KeyError e)
     | inr r => inr r
     end).
Proof.
  intros H. unfold handle_column_selection, multiselect.
  rewrite (bind_result _ _ reg
             [st_multiselect ("Select columns for " ++ file_name)
                (columns df) (columns df)]
             (chosen_columns ui df file_name)).
  - unfold lift, prepend. cbn [fst snd app]. reflexivity.
  - erewrite bind_emit_fresh; [reflexivity | reflexivity | exact H].
Qed.

(** C5. Selecting all the columns of a table in their order returns
    the table itself; this is what [handle_column_selection] does when
    the user leaves the multiselect at its default. *)
Theorem filter_columns_all_identity (ui : Session) (df : DataFrame)
  (file_name : string) :
  filter_columns df (columns df) = inr df
  /\ (picked ui ("Select columns for " ++ file_name) = None ->
      outcome (run (handle_column_selection ui df file_name)) = inr df).
Proof.
  assert (H : filter_columns df (columns df) = inr df).
  { unfold filter_columns.
    destruct (list_eq_dec string_dec (columns df) (columns df));
      [reflexivity | congruence]. }
  split; [exact H|]. intros Hp.
  unfold run. rewrite (handle_column_selection_fresh ui df file_name []);
    [|intros []].
  unfold chosen_columns. rewrite Hp. now rewrite H.
Qed.

Lemma filter_columns_all_identity_witness :
  filter_columns Samples.people (columns Samples.people) = inr Samples.people
  /\ outcome (run (handle_column_selection (Samples.ui_all []) Samples.people
                     "a.csv"))
     = inr Samples.people.
Proof.
  destruct (filter_columns_all_identity (Samples.ui_all []) Samples.people
              "a.csv") as [H1 H2].
  split; [exact H1 | apply H2; reflexivity].
Defined.

(** C6. For a table without repeated labels and a selection of its
    labels, the empty one included, the selection succeeds; the result
    has the rows of the table (same index, so same row count), its
    labels are the selection in the order of the selection, and each
    of its columns is the column of the table with that label. *)
Theorem filter_columns_subset (df : DataFrame) (selected : list string) :
  NoDup (columns df) ->
  (forall k, In k selected -> In k (columns df)) ->
  exists r, filter_columns df selected = inr r
            /\ len r = len df
            /\ index r = index df
            /\ columns r = selected
            /\ map Some (series r) = map (column df) selected.
Proof.
  intros Hnd Hin. unfold filter_columns.
  destruct (list_eq_dec string_dec selected (columns df)) as [->|Hne].
  - exists df. repeat split. now apply FrameFacts.columns_by_label.
  - destruct (FrameFacts.getitem_list_selection df selected Hnd Hin)
      as [r [Hr [Hi [Hc Hs]]]].
    exists r. rewrite Hr. unfold len. rewrite Hi.
    destruct (set_eqb selected (columns df)); repeat split; assumption.
Qed.

Lemma NoDup_people : NoDup (columns Samples.people).
Proof.
  repeat constructor; simpl; intuition discriminate.
Defined.

Lemma filter_columns_subset_witness :
  (exists r, filter_columns Samples.people ["age"] = inr r
             /\ len r = 5 /\ index r = [0; 1; 2; 3; 4]
             /\ columns r = ["age"]
             /\ map Some (series r) = map (column Samples.people) ["age"])
  /\ (exists r, filter_columns Samples.people [] = inr r
                /\ len r = 5 /\ index r = [0; 1; 2; 3; 4]
                /\ columns r = []
                /\ map Some (series r) = map (column Samples.people) []).
Proof.
  split.
  - apply (filter_columns_subset Samples.people ["age"] NoDup_people).
    intros k [<-|[]]. simpl. auto.
  - apply (filter_columns_subset Samples.people [] NoDup_people).
    intros k [].
Defined.

(** C8. A selection with a label that is not a column fails: no table
    is returned and the [KeyError] names the label; selecting [Foo]
    alone from a table without it raises the error that names [Foo]. *)
Theorem filter_columns_unknown (df : DataFrame) (selected : list string)
  (k : string) :
  In k selected -> ~ In k (columns df) ->
  (exists e, filter_columns df selected = inl e /\ In k (named e))
  /\ (selected = [k] ->
      filter_columns df selected = inl (KeyError_none_in_columns [k])).
Proof.
  intros Hk Hn.
  assert (Hex : existsb (String.eqb k) (columns df) = false).
  { destruct (existsb (String.eqb k) (columns df)) eqn:E; [|reflexivity].
    apply existsb_exists in E as [x [Hx Heq]].
    apply String.eqb_eq in Heq. now subst. }
  assert (Hne : selected <> columns df) by (intros ->; contradiction).
  split.
  - unfold filter_columns.
    destruct (list_eq_dec string_dec selected (columns df)); [contradiction|].
    assert (Hg : exists e, getitem_list df selected = inl e /\ In k (named e)).
    { unfold getitem_list.
      set (nf := filter (fun k0 => negb (existsb (String.eqb k0) (columns df)))
                        selected).
      assert (Hnf : In k nf).
      { apply filter_In. split; [assumption | now rewrite Hex]. }
      destruct nf as [|x nf'] eqn:Enf; [contradiction|].
      destruct (Nat.eqb _ _).
      - eexists. split; [reflexivity | exact Hk].
      - eexists. split; [reflexivity|]. cbn [named]. now apply unique_In. }
    destruct (set_eqb selected (columns df)); exact Hg.
  - intros ->. unfold filter_columns.
    destruct (list_eq_dec string_dec [k] (columns df)); [contradiction|].
    unfold getitem_list. simpl. rewrite Hex. simpl.
    now destruct (set_eqb [k] (columns df)).
Qed.

Lemma filter_columns_unknown_witness :
  filter_columns Samples.people ["Foo"] = inl (KeyError_none_in_columns ["Foo"]).
Proof.
  apply (filter_columns_unknown Samples.people ["Foo"] "Foo").
  - now left.
  - simpl. intuition discriminate.
  - reflexivity.
Defined.

(* ================================================================== *)
(** ** The exporter *)

(** The extension and the media type [convert_file] picks, when the
    download button is new in the run. *)
Lemma convert_file_fresh (io : Pandas) (df : DataFrame)
  (file_name target_format : string) (buffer : list Byte.byte)
  (reg : list element_id) :
  (if String.eqb target_format "CSV" then to_csv io df else to_excel io df)
  = inr buffer ->
  let new_ext := if String.eqb target_format "CSV" then ".csv" else ".xlsx" in
  let mime := if String.eqb target_format "CSV" then "text/csv" else xlsx_mime in
  ~ In (download_button_id ("Download " ++ download_name file_name new_ext)
          (download_name file_name new_ext) mime) reg ->
  convert_file io df file_name target_format reg
  = ([st_download_button ("Download " ++ download_name file_name new_ext)
        buffer (download_name file_name new_ext) mime], inr tt).
Proof.
  intros H new_ext mime Hn. unfold convert_file. subst new_ext mime.
  destruct (String.eqb target_format "CSV"); rewrite H;
    unfold try_except; erewrite emit_fresh;
    [reflexivity | reflexivity | exact Hn | reflexivity | reflexivity
    | exact Hn].
Qed.

Lemma convert_file_written (io : Pandas) (df : DataFrame)
  (file_name target_format : string) (buffer : list Byte.byte) :
  (if String.eqb target_format "CSV" then to_csv io df else to_excel io df)
  = inr buffer ->
  let new_ext := if String.eqb target_format "CSV" then ".csv" else ".xlsx" in
  let mime := if String.eqb target_format "CSV" then "text/csv" else xlsx_mime in
  run (convert_file io df file_name target_format)
  = ([st_download_button ("Download " ++ download_name file_name new_ext)
        buffer (download_name file_name new_ext) mime], inr tt).
Proof.
  intros H new_ext mime. unfold run.
  apply (convert_file_fresh io df file_name target_format buffer [] H).
  intros [].
Qed.

(** C3. The name offered for download has every occurrence of the
    extension replaced, not the trailing one only: for [report.csv.csv]
    exported to Excel the name offered is [report.xlsx.xlsx], while
    replacing the extension of the name gives [report.csv.xlsx] and
    replacing its first occurrence gives [report.xlsx.csv]. *)
Theorem convert_file_not_first_occurrence_only :
  run (convert_file Samples.io Samples.people "report.csv.csv" "Excel")
  = ([st_download_button "Download report.xlsx.xlsx" [] "report.xlsx.xlsx"
        xlsx_mime], inr tt)
  /\ splitext "report.csv.csv" = ("report.csv", ".csv")
  /\ (fst (splitext "report.csv.csv") ++ ".xlsx")%string = "report.csv.xlsx"
  /\ replace_first (snd (splitext "report.csv.csv")) ".xlsx" "report.csv.csv"
     = "report.xlsx.csv"
  /\ download_name "report.csv.csv" ".xlsx" = "report.xlsx.xlsx".
Proof.
  repeat split.
Qed.


(** C10. For a name without extension the new extension is inserted at
    every character boundary: it comes first and again after every
    character of the name, so the result is longer than the name by
    one extension per boundary; [data] exported to CSV is offered as
    [.csvd.csva.csvt.csva.csv]. *)
Theorem convert_file_name_without_extension (io : Pandas) (df : DataFrame)
  (file_name target_format : string) (buffer : list Byte.byte) :
  let new_ext := if String.eqb target_format "CSV" then ".csv" else ".xlsx" in
  let mime := if String.eqb target_format "CSV" then "text/csv" else xlsx_mime in
  let expected :=
    (new_ext
     ++ String.concat "" (map (fun c => String c new_ext) (chars file_name)))%string in
  snd (splitext file_name) = "" ->
  (if String.eqb target_format "CSV" then to_csv io df else to_excel io df)
  = inr buffer ->
  download_name file_name new_ext = expected
  /\ String.length expected
     = String.length file_name
       + (String.length file_name + 1) * String.length new_ext
  /\ run (convert_file io df file_name target_format)
     = ([st_download_button ("Download " ++ expected) buffer expected mime],
        inr tt)
  /\ download_name "data" ".csv" = ".csvd.csva.csvt.csva.csv".
Proof.
  intros new_ext mime expected Hext Hw.
  assert (Hd : download_name file_name new_ext = expected).
  { unfold download_name. rewrite Hext. unfold replace.
    apply replace_interleave_closed. }
  split; [exact Hd|]. split.
  - rewrite <- Hd. unfold download_name. rewrite Hext. unfold replace.
    apply replace_interleave_length.
  - split; [|reflexivity].
    rewrite (convert_file_written io df file_name target_format buffer Hw).
    fold new_ext mime. now rewrite Hd.
Qed.

Lemma convert_file_name_without_extension_witness :
  run (convert_file Samples.io Samples.people "data" "CSV")
  = ([st_download_button "Download .csvd.csva.csvt.csva.csv" []
        ".csvd.csva.csvt.csva.csv" "text/csv"], inr tt).
Proof.
  apply (convert_file_name_without_extension Samples.io Samples.people
           "data" "CSV" []); reflexivity.
Defined.

(* ================================================================== *)
(** ** The cleaner *)

Lemma bind_assoc {A B C : Type} (m : M A) (f : A -> M B) (g : B -> M C)
  (reg : list element_id) :
  bind (bind m f) g reg = bind m (fun a => bind (f a) g) reg.
Proof.
  unfold bind. destruct (m reg) as [t [e|a]]; [reflexivity|].
  destruct (f a (reg ++ elements t)) as [t' [e|b]]; [reflexivity|].
  rewrite elements_app, app_assoc.
  destruct (g b ((reg ++ elements t) ++ elements t')) as [t'' r].
  now rewrite app_assoc.
Qed.

(** One step of a computation whose next call shows something that is
    not an element, or returns. *)
Ltac step :=
  first [ rewrite bind_assoc
        | rewrite bind_ret
        | rewrite bind_lift_inr
        | erewrite bind_emit_plain by reflexivity ].

(** What [clean_data] does on a frame without repeated labels, by the
    boxes ticked, in a run that has neither of its two boxes yet. *)
Lemma clean_data_fresh (io : Pandas) (ui : Session)
  (df : DataFrame) (file_name : string)
  (reg : list element_id) :
  NoDup (columns df) ->
  ~ In (checkbox_id ("Remove duplicates in " ++ file_name)) reg ->
  ~ In (checkbox_id ("Fill missing values in " ++ file_name)) reg ->
  let dedup := sidebar_checked ui ("Remove duplicates in " ++ file_name) in
  let fill := sidebar_checked ui ("Fill missing values in " ++ file_name) in
  let df1 := if dedup then drop_duplicates df else df in
  clean_data io ui df file_name reg
  = (st_sidebar_checkbox ("Remove duplicates in " ++ file_name)
     :: (if dedup
         then [st_sidebar_write
                 ("Removed "
                  ++ str_int (Z.of_nat (len df) - Z.of_nat (len df1))
                  ++ " duplicates")]
         else [])
     ++ st_sidebar_checkbox ("Fill missing values in " ++ file_name)
     :: (if fill then [st_sidebar_write "Filled missing numeric values"]
         else []),
     inr (if fill then fill_numeric (nansum io) df1 else df1)).
Proof.
  intros Hnd H1 H2 dedup fill df1.
  assert (Hnd1 : NoDup (columns df1)).
  { unfold df1. destruct dedup; [now rewrite drop_duplicates_columns | auto]. }
  assert (H2' : ~ In (checkbox_id ("Fill missing values in " ++ file_name))
                  (reg ++ [checkbox_id ("Remove duplicates in " ++ file_name)])).
  { rewrite in_app_iff. cbn [In]. intros [H|[H|[]]]; [contradiction|].
    cbn in H. discriminate. }
  unfold clean_data.
  rewrite (bind_result _ _ reg _ _ (sidebar_checkbox_fresh ui _ reg H1)).
  fold dedup. cbn [elements flat_map element_of app].
  assert (Hfill : forall d : DataFrame, NoDup (columns d) ->
            bind (sidebar_checkbox ui ("Fill missing values in " ++ file_name))
              (fun fill0 : bool =>
                 if fill0
                 then
                   target <- lift (getitem_list d
                                     (columns (select_dtypes_number d))) ;;
                   source <- lift (getitem_list d
                                     (columns (select_dtypes_number d))) ;;
                   emit (st_sidebar_write "Filled missing numeric values") ;;
                   ret (setitem_frame d (columns (select_dtypes_number d))
                          (fillna target (frame_mean (nansum io) source)))
                 else ret d)
              (reg ++ [checkbox_id ("Remove duplicates in " ++ file_name)])
            = (st_sidebar_checkbox ("Fill missing values in " ++ file_name)
               :: (if fill
                   then [st_sidebar_write "Filled missing numeric values"]
                   else []),
               inr (if fill then fill_numeric (nansum io) d else d))).
  { intros d Hd.
    rewrite (bind_result _ _ _ _ _ (sidebar_checkbox_fresh ui _ _ H2')).
    fold fill. destruct fill; [|reflexivity].
    rewrite (getitem_numeric_cols d Hd). rewrite !bind_lift_inr.
    erewrite bind_emit_plain by reflexivity.
    now rewrite (setitem_fill_numeric (nansum io) d Hd). }
  destruct dedup.
  - fold df1. cbv zeta. rewrite bind_assoc.
    erewrite bind_emit_plain by reflexivity. rewrite bind_ret.
    now rewrite (Hfill df1 Hnd1).
  - fold df1. rewrite bind_ret. now rewrite (Hfill df1 Hnd1).
Qed.

Lemma clean_data_run (io : Pandas) (ui : Session)
  (df : DataFrame) (file_name : string) :
  NoDup (columns df) ->
  let dedup := sidebar_checked ui ("Remove duplicates in " ++ file_name) in
  let fill := sidebar_checked ui ("Fill missing values in " ++ file_name) in
  let df1 := if dedup then drop_duplicates df else df in
  run (clean_data io ui df file_name)
  = (st_sidebar_checkbox ("Remove duplicates in " ++ file_name)
     :: (if dedup
         then [st_sidebar_write
                 ("Removed "
                  ++ str_int (Z.of_nat (len df) - Z.of_nat (len df1))
                  ++ " duplicates")]
         else [])
     ++ st_sidebar_checkbox ("Fill missing values in " ++ file_name)
     :: (if fill then [st_sidebar_write "Filled missing numeric values"]
         else []),
     inr (if fill then fill_numeric (nansum io) df1 else df1)).
Proof.
  intros Hnd. unfold run.
  apply (clean_data_fresh io ui df file_name [] Hnd); intros [].
Qed.


(** With the entries added in row order, the mean of 0.1, 0.2 and 0.3
    is the float next above 0.2; the mean of two values whose sum
    exceeds the largest float is infinity, no number the column had;
    the mean of the two infinities is not a number. *)
Example mean_rounds :
  mean float_sum
    [cell_of_float 0x1.999999999999ap-4; cell_of_float 0x1.999999999999ap-3;
     cell_of_float 0x1.3333333333333p-2; NaN]
  = cell_of_float 0x1.999999999999bp-3.
Proof. reflexivity. Qed.

Example mean_overflows :
  mean float_sum
    [cell_of_float 0x1.1ccf385ebc8ap+1023;
     cell_of_float 0x1.1ccf385ebc8ap+1023; NaN]
  = cell_of_float infinity.
Proof. reflexivity. Qed.

Example mean_of_infinities :
  mean float_sum [cell_of_float infinity; cell_of_float neg_infinity; NaN]
  = NaN.
Proof. reflexivity. Qed.



Lemma wf_scores : wf Samples.scores.
Proof.
  split; [repeat constructor | repeat constructor; simpl; tauto].
Defined.

Lemma NoDup_pets : NoDup (columns Samples.pets).
Proof.
  repeat constructor; simpl; intuition discriminate.
Defined.

Lemma wf_pets : wf Samples.pets.
Proof.
  split; [repeat constructor | exact NoDup_pets].
Defined.


Lemma first_occurrences_nth (rs : list (list cell)) (i : nat) :
  i < List.length rs ->
  (nth i (first_occurrences rs) true = false
   <-> exists j, j < i /\ nth j rs [] = nth i rs []).
Proof.
  intros Hi. unfold first_occurrences.
  rewrite (nth_indep _ true (first_occurrence rs 0))
    by (now rewrite length_map, length_seq).
  rewrite (map_nth (first_occurrence rs)), seq_nth by assumption.
  cbn [Nat.add]. unfold first_occurrence. rewrite negb_false_iff.
  rewrite existsb_exists. split.
  - intros [j [Hj Heq]]. apply in_seq in Hj. apply row_eqb_eq in Heq.
    exists j. split; [lia | congruence].
  - intros [j [Hj Heq]]. exists j. split; [apply in_seq; lia|].
    apply row_eqb_eq. congruence.
Qed.

(** C2. When the box to remove duplicates is ticked, on a table with
    at least one column, [clean_data] drops the rows that have the
    values of an earlier row and no other row: the rows left are the
    first occurrences, with their labels, in their order; the count
    written to the sidebar is the number of rows before minus the
    number of rows after. *)
Theorem clean_data_removes_duplicates (io : Pandas) (ui : Session)
  (df : DataFrame) (file_name : string) :
  wf df -> series df <> [] ->
  sidebar_checked ui ("Remove duplicates in " ++ file_name) = true ->
  let keep := first_occurrences (rows df) in
  let kept := getitem_mask df keep in
  (forall i, i < len df ->
     (nth i keep true = false
      <-> exists j, j < i /\ nth j (rows df) [] = nth i (rows df) []))
  /\ index kept = compress keep (index df)
  /\ rows kept = compress keep (rows df)
  /\ columns kept = columns df
  /\ len kept <= len df
  /\ exists t after,
       run (clean_data io ui df file_name)
       = (st_sidebar_checkbox ("Remove duplicates in " ++ file_name)
          :: st_sidebar_write
               ("Removed " ++ str_int (Z.of_nat (len df) - Z.of_nat (len after))
                ++ " duplicates")
          :: t, inr after)
       /\ index after = index kept
       /\ (sidebar_checked ui ("Fill missing values in " ++ file_name) = false ->
           after = kept).
Proof.
  intros Hwf Hcol Hdedup keep kept.
  assert (Hkeep : List.length keep = len df).
  { unfold keep. now rewrite first_occurrences_length, rows_length. }
  assert (Hdrop : drop_duplicates df = kept)
    by now apply drop_duplicates_first_occurrences.
  split; [|split; [|split; [|split; [|split]]]].
  - intros i Hi. apply first_occurrences_nth. now rewrite rows_length.
  - reflexivity.
  - now apply getitem_mask_rows.
  - apply getitem_mask_columns.
  - rewrite <- Hdrop. apply drop_duplicates_len.
  - destruct Hwf as [Hlen Hnd].
    rewrite (clean_data_run io ui df file_name Hnd). rewrite Hdedup, Hdrop.
    cbn [app].
    destruct (sidebar_checked ui ("Fill missing values in " ++ file_name)).
    + eexists _, (fill_numeric (nansum io) kept). split; [reflexivity|].
      split; [reflexivity | discriminate].
    + eexists _, kept. split; [reflexivity|]. split; reflexivity.
Qed.

Lemma wf_people : wf Samples.people.
Proof.
  split; [repeat constructor | exact NoDup_people].
Defined.

Lemma clean_data_removes_duplicates_witness :
  exists t after,
    run (clean_data Samples.io Samples.ui_dedup Samples.people "a.csv")
    = (st_sidebar_checkbox "Remove duplicates in a.csv"
       :: st_sidebar_write
            ("Removed " ++ str_int (5 - Z.of_nat (len after)) ++ " duplicates")
       :: t, inr after)
    /\ index after = [0; 1; 4]
    /\ after
       = {| index := [0; 1; 4];
            series := [ {| label := "name"; kind := object;
                           values := [Str "ann"; Str "bob"; Str "cid"] |};
                        {| label := "age"; kind := number;
                           values := [Samples.num 30; NaN; Samples.num 40] |} ] |}.
Proof.
  destruct (clean_data_removes_duplicates Samples.io Samples.ui_dedup
              Samples.people "a.csv" wf_people ltac:(discriminate) eq_refl)
    as [_ [_ [_ [_ [_ [t [after [Hrun [Hidx Hafter]]]]]]]]].
  exists t, after. split; [exact Hrun|]. split.
  - rewrite Hidx. reflexivity.
  - rewrite (Hafter eq_refl). reflexivity.
Defined.

(** C9. With only the box to remove duplicates ticked, cleaning the
    table that a first cleaning returned changes nothing: it returns
    the same table and writes that 0 duplicates were removed. *)
Theorem clean_data_dedup_idempotent (io : Pandas) (ui : Session)
  (df : DataFrame) (file_name : string) :
  wf df ->
  sidebar_checked ui ("Remove duplicates in " ++ file_name) = true ->
  sidebar_checked ui ("Fill missing values in " ++ file_name) = false ->
  exists once,
    outcome (run (clean_data io ui df file_name)) = inr once
    /\ once = drop_duplicates df
    /\ drop_duplicates once = once
    /\ run (clean_data io ui once file_name)
       = ([st_sidebar_checkbox ("Remove duplicates in " ++ file_name);
           st_sidebar_write "Removed 0 duplicates";
           st_sidebar_checkbox ("Fill missing values in " ++ file_name)],
          inr once).
Proof.
  intros Hwf Hdedup Hfill. exists (drop_duplicates df).
  pose proof (drop_duplicates_idempotent df Hwf) as Hidem.
  split; [|split; [reflexivity|split; [exact Hidem|]]].
  - destruct Hwf as [_ Hnd]. rewrite (clean_data_run io ui df file_name Hnd).
    unfold outcome. cbn [snd]. now rewrite Hdedup, Hfill.
  - rewrite clean_data_run
      by (rewrite drop_duplicates_columns; apply Hwf).
    rewrite Hdedup, Hfill, Hidem, Z.sub_diag. reflexivity.
Qed.

Lemma clean_data_dedup_idempotent_witness :
  exists once,
    outcome (run (clean_data Samples.io Samples.ui_dedup Samples.people
                    "a.csv"))
    = inr once
    /\ once = drop_duplicates Samples.people
    /\ drop_duplicates once = once
    /\ run (clean_data Samples.io Samples.ui_dedup once "a.csv")
       = ([st_sidebar_checkbox "Remove duplicates in a.csv";
           st_sidebar_write "Removed 0 duplicates";
           st_sidebar_checkbox "Fill missing values in a.csv"],
          inr once).
Proof.
  apply (clean_data_dedup_idempotent Samples.io Samples.ui_dedup
           Samples.people "a.csv" wf_people); reflexivity.
Defined.

(** With the box to fill ticked as well, a second cleaning can remove
    a row: the fill makes two rows equal. *)
Example clean_data_fill_then_dedup :
  outcome (run (clean_data Samples.io (Samples.ui_all []) Samples.gaps "a.csv"))
  = inr {| index := [0; 1];
           series := [ {| label := "x"; kind := number;
                          values := [Samples.num 2; Samples.num 2] |} ] |}
  /\ len (drop_duplicates
            {| index := [0; 1];
               series := [ {| label := "x"; kind := number;
                              values := [Samples.num 2; Samples.num 2] |} ] |})
     = 1.
Proof.
  repeat split.
Qed.

(** A table without column keeps its rows: [drop_duplicates] returns
    an empty frame as it is. *)
Example drop_duplicates_no_columns :
  drop_duplicates Samples.no_columns = Samples.no_columns.
Proof. reflexivity. Qed.

(* ================================================================== *)
(** ** The orchestrator *)

Lemma downloads_app (a b : list event) :
  downloads (a ++ b) = downloads a + downloads b.
Proof. unfold downloads. now rewrite filter_app, length_app. Qed.

Lemma warnings_app (a b : list event) :
  warnings (a ++ b) = warnings a + warnings b.
Proof. unfold warnings. now rewrite filter_app, length_app. Qed.

(** The cleaner, in a run that has neither of its two boxes yet, does
    what it does in a new run: it never raises, offers nothing for
    download and creates its two boxes. *)
Lemma clean_data_turn (io : Pandas) (ui : Session)
  (df : DataFrame) (file_name : string) :
  exists t r,
    downloads t = 0 /\ warnings t = 0
    /\ elements t = [checkbox_id ("Remove duplicates in " ++ file_name);
                     checkbox_id ("Fill missing values in " ++ file_name)]
    /\ forall reg,
         ~ In (checkbox_id ("Remove duplicates in " ++ file_name)) reg ->
         ~ In (checkbox_id ("Fill missing values in " ++ file_name)) reg ->
         clean_data io ui df file_name reg = (t, inr r).
Proof.
  set (dedup := sidebar_checked ui ("Remove duplicates in " ++ file_name)).
  set (fill := sidebar_checked ui ("Fill missing values in " ++ file_name)).
  set (df1 := if dedup then drop_duplicates df else df).
  destruct (getitem_numeric_cols_ok df1) as [sub [Hs _]].
  exists (st_sidebar_checkbox ("Remove duplicates in " ++ file_name)
          :: (if dedup
              then [st_sidebar_write
                      ("Removed "
                       ++ str_int (Z.of_nat (len df) - Z.of_nat (len df1))
                       ++ " duplicates")]
              else [])
          ++ st_sidebar_checkbox ("Fill missing values in " ++ file_name)
          :: (if fill then [st_sidebar_write "Filled missing numeric values"]
              else [])),
    (if fill
     then setitem_frame df1 (columns (select_dtypes_number df1))
            (fillna sub (frame_mean (nansum io) sub))
     else df1).
  split; [now destruct dedup, fill|]. split; [now destruct dedup, fill|].
  split; [now destruct dedup, fill|].
  intros reg H1 H2.
  assert (H2' : ~ In (checkbox_id ("Fill missing values in " ++ file_name))
                  (reg ++ [checkbox_id ("Remove duplicates in " ++ file_name)])).
  { rewrite in_app_iff. cbn [In]. intros [H|[H|[]]]; [contradiction|].
    cbn in H. discriminate. }
  unfold clean_data.
  rewrite (bind_result _ _ reg _ _ (sidebar_checkbox_fresh ui _ reg H1)).
  fold dedup. cbn [elements flat_map element_of app].
  assert (Hfill :
            bind (sidebar_checkbox ui ("Fill missing values in " ++ file_name))
              (fun fill0 : bool =>
                 if fill0
                 then
                   target <- lift (getitem_list df1
                                     (columns (select_dtypes_number df1))) ;;
                   source <- lift (getitem_list df1
                                     (columns (select_dtypes_number df1))) ;;
                   emit (st_sidebar_write "Filled missing numeric values") ;;
                   ret (setitem_frame df1 (columns (select_dtypes_number df1))
                          (fillna target (frame_mean (nansum io) source)))
                 else ret df1)
              (reg ++ [checkbox_id ("Remove duplicates in " ++ file_name)])
            = (st_sidebar_checkbox ("Fill missing values in " ++ file_name)
               :: (if fill
                   then [st_sidebar_write "Filled missing numeric values"]
                   else []),
               inr (if fill
                    then setitem_frame df1 (columns (select_dtypes_number df1))
                           (fillna sub (frame_mean (nansum io) sub))
                    else df1))).
  { rewrite (bind_result _ _ _ _ _ (sidebar_checkbox_fresh ui _ _ H2')).
    fold fill. destruct fill; [|reflexivity].
    rewrite Hs. rewrite !bind_lift_inr.
    now erewrite bind_emit_plain by reflexivity. }
  unfold df1 in *. destruct dedup.
  - cbv zeta. rewrite bind_assoc.
    erewrite bind_emit_plain by reflexivity. rewrite bind_ret.
    now rewrite Hfill.
  - rewrite bind_ret. now rewrite Hfill.
Qed.

(** A multiselect over the columns of a frame returns columns of the
    frame, so the selection raises no [KeyError]. *)
Lemma chosen_columns_present (ui : Session) (df : DataFrame)
  (file_name : string) :
  exists r, filter_columns df (chosen_columns ui df file_name) = inr r.
Proof.
  apply filter_columns_present. intros k Hk. unfold chosen_columns in Hk.
  destruct (picked ui ("Select columns for " ++ file_name)); [|exact Hk].
  apply filter_In in Hk as [_ Hk].
  apply existsb_exists in Hk as [x [Hx Heq]].
  apply String.eqb_eq in Heq. now subst.
Qed.

(** The exporter, in a run that has no download button of the same
    label, name and media type, does what it does in a new run. *)
Lemma convert_file_turn (io : Pandas) (df : DataFrame)
  (file_name target_format : string) (reg : list element_id) :
  ~ In (download_button_id
          ("Download " ++ download_name file_name (new_ext_of target_format))
          (download_name file_name (new_ext_of target_format))
          (mime_of target_format)) reg ->
  convert_file io df file_name target_format reg
  = run (convert_file io df file_name target_format).
Proof.
  unfold new_ext_of, mime_of, run, convert_file.
  destruct (String.eqb target_format "CSV").
  - destruct (to_csv io df); [reflexivity|]. intros H.
    unfold try_except. erewrite !emit_fresh;
      [reflexivity | reflexivity | intros [] | reflexivity | exact H].
  - destruct (to_excel io df); [reflexivity|]. intros H.
    unfold try_except. erewrite !emit_fresh;
      [reflexivity | reflexivity | intros [] | reflexivity | exact H].
Qed.

(** In a new run the exporter never raises; it offers one result when
    the writer succeeds, under the name [download_name] gives. *)
Lemma convert_file_returns (io : Pandas) (df : DataFrame)
  (file_name target_format : string) :
  exists t, run (convert_file io df file_name target_format) = (t, inr tt)
            /\ warnings t = 0
            /\ (writers_total io -> downloads t = 1)
            /\ (forall i, In i (elements t) ->
                  of_file file_name
                    (download_name file_name (new_ext_of target_format)) i).
Proof.
  unfold run, convert_file, new_ext_of.
  destruct (String.eqb target_format "CSV").
  - destruct (to_csv io df) as [e|b] eqn:E.
    + eexists. split; [reflexivity|]. split; [reflexivity|]. split.
      * intros Hw. destruct (Hw df) as [[b Hb] _]. congruence.
      * intros i [].
    + eexists. split; [reflexivity|]. split; [reflexivity|].
      split; [reflexivity|]. intros i [<-|[]]. reflexivity.
  - destruct (to_excel io df) as [e|b] eqn:E.
    + eexists. split; [reflexivity|]. split; [reflexivity|]. split.
      * intros Hw. destruct (Hw df) as [_ [b Hb]]. congruence.
      * intros i [].
    + eexists. split; [reflexivity|]. split; [reflexivity|].
      split; [reflexivity|]. intros i [<-|[]]. reflexivity.
Qed.

(** A file the loop passes over gets its warning right after the
    loader's messages and nothing else, whatever the run has created
    before. *)
Lemma process_file_passed_over (io : Pandas) (ui : Session)
  (conversion_format : string) (total i : nat) (file : UploadedFile)
  (reg : list element_id) :
  passed_over io file = true ->
  process_file io ui conversion_format total i file reg
  = ([progress_bar_progress
        (PrimFloat.div (float_of_nat (i + 1)) (float_of_nat total));
      st_header ("Processing: " ++ name file)]
     ++ trace (run (load_data io file))
     ++ [st_warning ("Skipping empty/invalid file: " ++ name file)],
     inr tt).
Proof.
  unfold passed_over, process_file. intros Hp.
  erewrite !bind_emit_plain by reflexivity.
  destruct (load_data_returns io file) as [tl [o [Hl [_ [_ [He Hsome]]]]]].
  rewrite Hl in *. cbn [trace outcome fst snd] in *.
  rewrite <- (load_data_any_run io file reg) in Hl.
  rewrite (bind_result _ _ _ _ _ Hl). rewrite He, app_nil_r.
  destruct o as [df|].
  - rewrite Hp. rewrite (emit_plain (skip_warning file) _ eq_refl).
    reflexivity.
  - rewrite (emit_plain (skip_warning file) _ eq_refl). reflexivity.
Qed.

(** The turn of the loop for a file that loads, in a run that has no
    element of a file of this name or of this download name yet. *)
Lemma process_file_fresh (io : Pandas) (ui : Session)
  (conversion_format : string) (total i : nat) (file : UploadedFile)
  (df : DataFrame) (reg : list element_id) :
  outcome (run (load_data io file)) = inr (Some df) ->
  empty df = false ->
  (forall id, In id reg ->
     ~ of_file (name file)
         (download_name (name file) (new_ext_of conversion_format)) id) ->
  exists tc after sel,
    run (clean_data io ui df (name file)) = (tc, inr after)
    /\ downloads tc = 0 /\ warnings tc = 0
    /\ elements tc = [checkbox_id ("Remove duplicates in " ++ name file);
                      checkbox_id ("Fill missing values in " ++ name file)]
    /\ filter_columns after (chosen_columns ui after (name file)) = inr sel
    /\ process_file io ui conversion_format total i file reg
       = ([progress_bar_progress
             (PrimFloat.div (float_of_nat (i + 1)) (float_of_nat total));
           st_header ("Processing: " ++ name file);
           st_write_size
             (PrimFloat.div (float_of_nat (size file)) (float_of_nat 1024));
           st_dataframe (head df)]
          ++ tc
          ++ [st_multiselect ("Select columns for " ++ name file)
                (columns after) (columns after);
              st_checkbox ("Show visualization for " ++ name file)]
          ++ (if checked ui ("Show visualization for " ++ name file)
              then [st_bar_chart (iloc_columns 2 (select_dtypes_number sel))]
              else [])
          ++ trace (run (convert_file io sel (name file) conversion_format)),
          outcome (run (convert_file io sel (name file) conversion_format))).
Proof.
  intros Hload Hempty Hreg.
  destruct (clean_data_turn io ui df (name file))
    as [tc [after [Hd [Hw [He Hc]]]]].
  destruct (chosen_columns_present ui after (name file)) as [sel Hsel].
  exists tc, after, sel.
  split; [apply Hc; intros []|]. split; [exact Hd|]. split; [exact Hw|].
  split; [exact He|]. split; [exact Hsel|].
  assert (F1 : ~ In (checkbox_id ("Remove duplicates in " ++ name file)) reg).
  { intros H. apply (Hreg _ H). cbn. auto. }
  assert (F2 : ~ In (checkbox_id ("Fill missing values in " ++ name file)) reg).
  { intros H. apply (Hreg _ H). cbn. auto. }
  assert (F3 : ~ In (multiselect_id ("Select columns for " ++ name file)
                       (columns after) (columns after))
                 (reg ++ elements tc)).
  { rewrite He, in_app_iff. cbn [In].
    intros [H|[H|[H|[]]]]; try discriminate. apply (Hreg _ H). reflexivity. }
  assert (F4 : ~ In (checkbox_id ("Show visualization for " ++ name file))
                 ((reg ++ elements tc)
                  ++ [multiselect_id ("Select columns for " ++ name file)
                        (columns after) (columns after)])).
  { rewrite He, !in_app_iff. cbn [In].
    intros [[H|[H|[H|[]]]]|[H|[]]]; try discriminate;
      try (cbn in H; discriminate).
    apply (Hreg _ H). cbn. auto. }
  assert (F5 : ~ In (download_button_id
                       ("Download "
                        ++ download_name (name file)
                             (new_ext_of conversion_format))
                       (download_name (name file) (new_ext_of conversion_format))
                       (mime_of conversion_format))
                 (((reg ++ elements tc)
                   ++ [multiselect_id ("Select columns for " ++ name file)
                         (columns after) (columns after)])
                  ++ [checkbox_id ("Show visualization for " ++ name file)])).
  { rewrite He, !in_app_iff. cbn [In].
    intros [[[H|[H|[H|[]]]]|[H|[]]]|[H|[]]]; try discriminate.
    apply (Hreg _ H). reflexivity. }
  destruct (load_data_returns io file) as [tl [o [Hl [_ [_ [_ Hsome]]]]]].
  rewrite Hl in Hload. cbn [outcome snd] in Hload. injection Hload as ->.
  rewrite (Hsome df eq_refl) in Hl.
  rewrite <- (load_data_any_run io file reg) in Hl.
  pose proof (handle_column_selection_fresh ui after (name file) _ F3) as Hs.
  rewrite Hsel in Hs.
  unfold process_file.
  erewrite !bind_emit_plain by reflexivity.
  rewrite (bind_result _ _ _ _ _ Hl). cbn [elements flat_map].
  rewrite app_nil_r, Hempty.
  erewrite !bind_emit_plain by reflexivity.
  rewrite (bind_result _ _ _ _ _ (Hc reg F1 F2)).
  rewrite (bind_result _ _ _ _ _ Hs).
  cbn [elements flat_map element_of app].
  rewrite (bind_result _ _ _ _ _ (checkbox_fresh ui _ _ F4)).
  cbn [elements flat_map element_of app].
  destruct (checked ui ("Show visualization for " ++ name file)).
  - erewrite bind_emit_plain by reflexivity.
    rewrite (convert_file_turn io sel (name file) conversion_format _ F5).
    unfold prepend, trace, outcome. cbn [fst snd app].
    now rewrite <- ?app_assoc.
  - rewrite bind_ret.
    rewrite (convert_file_turn io sel (name file) conversion_format _ F5).
    unfold prepend, trace, outcome. cbn [fst snd app].
    now rewrite <- ?app_assoc.
Qed.

(** An element of the turn of one file is an element of the turn of
    another only when the two files get the same download name. *)
Lemma of_file_exclusive (n n' new_ext : string) (i : element_id) :
  of_file n (download_name n new_ext) i ->
  of_file n' (download_name n' new_ext) i ->
  download_name n new_ext = download_name n' new_ext.
Proof.
  destruct i as [| | l | l o d | l f m]; cbn [of_file]; try contradiction.
  - intros [H|[H|H]] [H'|[H'|H']]; rewrite H in H';
      try (apply append_injective in H'; now subst);
      cbn in H'; discriminate.
  - intros H H'. rewrite H in H'. apply append_injective in H'. now subst.
  - intros H H'. congruence.
Qed.

(** What one turn of the loop adds to the account, in a run that has
    no element of the file yet when the file is not passed over. *)
Lemma process_file_accounts (io : Pandas) (ui : Session)
  (conversion_format : string) (total i : nat) (file : UploadedFile)
  (reg : list element_id) :
  (passed_over io file = false ->
   forall id, In id reg ->
     ~ of_file (name file)
         (download_name (name file) (new_ext_of conversion_format)) id) ->
  exists t,
    process_file io ui conversion_format total i file reg = (t, inr tt)
    /\ warnings t = (if passed_over io file then 1 else 0)
    /\ (passed_over io file = true -> downloads t = 0 /\ elements t = [])
    /\ (passed_over io file = false -> writers_total io -> downloads t = 1)
    /\ (forall id, In id (elements t) ->
          of_file (name file)
            (download_name (name file) (new_ext_of conversion_format)) id).
Proof.
  intros Hreg. destruct (passed_over io file) eqn:Hp.
  - rewrite (process_file_passed_over io ui conversion_format total i file
               reg Hp).
    destruct (load_data_returns io file) as [tl [o [Hl [Hd [Hw [He _]]]]]].
    rewrite Hl. cbn [trace fst]. eexists. split; [reflexivity|].
    assert (Hel : elements
                    ([progress_bar_progress
                        (PrimFloat.div (float_of_nat (i + 1))
                           (float_of_nat total));
                      st_header ("Processing: " ++ name file)]
                     ++ tl
                     ++ [st_warning
                           ("Skipping empty/invalid file: " ++ name file)])
                  = []).
    { rewrite !elements_app, He. reflexivity. }
    rewrite !warnings_app, !downloads_app, Hd, Hw, Hel.
    split; [reflexivity|]. split; [now split|]. split; [discriminate|].
    intros id [].
  - unfold passed_over in Hp.
    destruct (outcome (run (load_data io file))) as [e|[df|]] eqn:Hload;
      try discriminate.
    destruct (process_file_fresh io ui conversion_format total i file df reg
                Hload Hp (Hreg eq_refl))
      as [tc [after [sel [_ [Hd [Hw [He [_ Hrun]]]]]]]].
    destruct (convert_file_returns io sel (name file) conversion_format)
      as [tx [Hx [Hxw [Hxd Hxe]]]].
    rewrite Hx in Hrun. cbn [trace outcome fst snd] in Hrun.
    rewrite Hrun. eexists. split; [reflexivity|].
    rewrite !warnings_app, !downloads_app, Hw, Hd, Hxw.
    split; [now destruct (checked ui _)|]. split; [discriminate|]. split.
    + intros _ Hwt. rewrite (Hxd Hwt). now destruct (checked ui _).
    + intros id. rewrite !elements_app, He, !in_app_iff.
      intros [H|[H|[H|[H|H]]]].
      * destruct H.
      * destruct H as [<-|[<-|[]]]; cbn; auto.
      * destruct H as [<-|[<-|[]]]; cbn; auto.
      * destruct (checked ui _); destruct H.
      * now apply Hxe.
Qed.

(** The loop over files whose download names differ, in a run that
    has no element of any of them yet. *)
Lemma loop_accounts (io : Pandas) (ui : Session) (conversion_format : string)
  (total : nat) (files : list UploadedFile) :
  forall (i : nat) (reg : list element_id),
  NoDup (map (fun f => download_name (name f) (new_ext_of conversion_format))
           (filter (fun f => negb (passed_over io f)) files)) ->
  (forall f, In f files -> passed_over io f = false ->
     forall id, In id reg ->
       ~ of_file (name f)
           (download_name (name f) (new_ext_of conversion_format)) id) ->
  exists t,
    for_each (process_file io ui conversion_format total) i files reg
    = (t, inr tt)
    /\ warnings t = List.length (filter (passed_over io) files)
    /\ (writers_total io ->
        downloads t
        = List.length (filter (fun f => negb (passed_over io f)) files)).
Proof.
  induction files as [|f files IH]; intros i reg Hnd Hreg.
  - exists []. repeat split.
  - cbn [for_each].
    destruct (process_file_accounts io ui conversion_format total i f reg)
      as [t [Ht [Hw [Hd0 [Hd1 He]]]]].
    { intros Hp. apply Hreg; [now left | exact Hp]. }
    rewrite (bind_result _ _ _ _ _ Ht).
    cbn [filter] in Hnd |- *.
    destruct (passed_over io f) eqn:Hp; cbn [negb] in Hnd |- *.
    + destruct (Hd0 eq_refl) as [Hd Hel]. rewrite Hel, app_nil_r.
      destruct (IH (S i) reg Hnd) as [t' [Ht' [Hw' Hd']]].
      { intros g Hg. apply Hreg. now right. }
      rewrite Ht'. exists (t ++ t'). split; [reflexivity|].
      rewrite warnings_app, downloads_app, Hw, Hw', Hd.
      split; [reflexivity|]. intros Hwt. now rewrite (Hd' Hwt).
    + cbn [map] in Hnd. apply NoDup_cons_iff in Hnd as [Hnotin Hnd].
      destruct (IH (S i) (reg ++ elements t) Hnd) as [t' [Ht' [Hw' Hd']]].
      { intros g Hg Hpg id Hid Hof. apply in_app_iff in Hid as [Hid|Hid].
        - exact (Hreg g (or_intror Hg) Hpg id Hid Hof).
        - apply Hnotin.
          rewrite (of_file_exclusive _ _ _ _ (He id Hid) Hof).
          apply in_map_iff. exists g. split; [reflexivity|].
          apply filter_In. split; [exact Hg | now rewrite Hpg]. }
      rewrite Ht'. exists (t ++ t'). split; [reflexivity|].
      rewrite warnings_app, downloads_app, Hw, Hw'.
      split; [reflexivity|]. intros Hwt.
      rewrite (Hd1 eq_refl Hwt), (Hd' Hwt). reflexivity.
Qed.

(** Without an uploaded file [main] returns before the loop and shows
    no success message. *)
Example main_without_files (io : Pandas) (ui : Session) :
  uploaded ui = [] ->
  run (main io ui)
  = ([set_page_config; st_markdown_styles; st_title; st_write_intro;
      st_expander_guide; st_file_uploader], inr tt).
Proof.
  intros H. unfold run, main, configure_app, apply_custom_styles, show_intro,
    handle_file_upload.
  repeat step.
  erewrite bind_emit_fresh; [|reflexivity|intros []].
  rewrite bind_ret, H. reflexivity.
Qed.

(** The run of [main] on a batch that is not empty, up to the loop. *)
Lemma main_runs (io : Pandas) (ui : Session) :
  uploaded ui <> [] ->
  run (main io ui)
  = prepend prelude
      (bind (for_each (process_file io ui (conversion_format_of ui)
                         (List.length (uploaded ui)))
               0 (uploaded ui))
         (fun _ => emit progress_bar_empty ;; emit all_processed)
         [file_uploader_id;
          radio_id "Choose output format:" ["CSV"; "Excel"]]).
Proof.
  intros Hne. unfold run, main, configure_app, apply_custom_styles, show_intro,
    handle_file_upload, sidebar_radio.
  repeat step.
  erewrite bind_emit_fresh; [|reflexivity|intros []].
  rewrite bind_ret. destruct (uploaded ui) as [|f files] eqn:E; [congruence|].
  erewrite bind_emit_plain by reflexivity. rewrite bind_assoc.
  erewrite bind_emit_fresh; [|reflexivity|].
  - rewrite bind_ret. unfold prepend, prelude, conversion_format_of.
    cbn [fst snd app hd]. reflexivity.
  - cbn. intros [H|[]]. discriminate.
Qed.

(** C4. A batch in which a file has the name of an earlier file that
    was not passed over is stopped: the boxes of the second file have
    the labels of the boxes of the first and no key, so that
    [st.sidebar.checkbox] raises and [main] ends without the success
    message. With [a.csv], [b.csv] (which loads without rows) and
    [a.csv] again, one result is offered, one warning is shown and the
    run stops with the exception. With [a.csv], [b.csv] and [a.xlsx],
    exported to CSV, the third file gets the download name of the
    first: the download button raises inside the [try] of
    [convert_file], one result is offered and an error is shown in
    place of the other. *)
Theorem main_stops_at_repeated_name :
  (let ui := Samples.ui_all [Samples.file "a.csv"; Samples.file "b.csv";
                             Samples.file "a.csv"] in
   outcome (run (main Samples.io ui))
   = inl (StreamlitDuplicateElementId "checkbox")
   /\ downloads (trace (run (main Samples.io ui))) = 1
   /\ warnings (trace (run (main Samples.io ui))) = 1
   /\ successes (trace (run (main Samples.io ui))) = 0)
  /\ (let ui := Samples.ui_all [Samples.file "a.csv"; Samples.file "b.csv";
                                Samples.file "a.xlsx"] in
      outcome (run (main Samples.io ui)) = inr tt
      /\ downloads (trace (run (main Samples.io ui))) = 1
      /\ warnings (trace (run (main Samples.io ui))) = 1
      /\ In (st_error_exception "Conversion failed: "
               (StreamlitDuplicateElementId "download_button"))
            (trace (run (main Samples.io ui)))
      /\ last (trace (run (main Samples.io ui))) progress_bar_empty
         = all_processed).
Proof.
  split.
  - vm_compute. repeat split.
  - cbv zeta. split; [vm_compute; reflexivity|].
    split; [vm_compute; reflexivity|]. split; [vm_compute; reflexivity|].
    split; [|vm_compute; reflexivity].
    vm_compute. repeat (first [left; reflexivity | right]).
Qed.

(* ================================================================== *)
(** ** Further properties of the loader *)

(** X1. [load_data] returns a table exactly when the lowered
    extension is [.csv] or [.xlsx] and the reader of that format
    returned it; it then shows nothing. In every other case it returns
    no table and shows one error. It never raises. *)
Theorem load_data_frame_iff (io : Pandas) (file : UploadedFile) :
  let ext := lower (snd (splitext (name file))) in
  (forall df,
      outcome (run (load_data io file)) = inr (Some df)
      <-> (ext = ".csv" /\ read_csv io file = inr df)
          \/ (ext = ".xlsx" /\ read_excel io file = inr df))
  /\ (forall df, outcome (run (load_data io file)) = inr (Some df) ->
                 trace (run (load_data io file)) = [])
  /\ (outcome (run (load_data io file)) = inr None ->
      exists msg, trace (run (load_data io file)) = [st_error msg])
  /\ (exists o, outcome (run (load_data io file)) = inr o).
Proof.
  intros ext. unfold run, load_data. fold ext.
  destruct (String.eqb ext ".csv") eqn:Ecsv.
  - apply String.eqb_eq in Ecsv.
    assert (Hx : ext <> ".xlsx") by (rewrite Ecsv; discriminate).
    destruct (read_csv io file) as [e|d]; cbn.
    + repeat split; try discriminate; eauto.
      intros [[_ H]|[H _]]; [discriminate | contradiction].
    + repeat split; try discriminate; eauto.
      * intros H. injection H as <-. now left.
      * intros [[_ H]|[H _]]; [congruence | contradiction].
  - apply String.eqb_neq in Ecsv.
    destruct (String.eqb ext ".xlsx") eqn:Exlsx.
    + apply String.eqb_eq in Exlsx.
      destruct (read_excel io file) as [e|d]; cbn.
      * repeat split; try discriminate; eauto.
        intros [[H _]|[_ H]]; [contradiction | discriminate].
      * repeat split; try discriminate; eauto.
        -- intros H. injection H as <-. now right.
        -- intros [[H _]|[_ H]]; [contradiction | congruence].
    + apply String.eqb_neq in Exlsx. cbn.
      repeat split; try discriminate; eauto.
      intros [[H _]|[H _]]; contradiction.
Qed.

(** X2. An exception of the reader is caught: [load_data] shows
    "Error loading", the name of the file and the text of the
    exception, and returns no table; this holds for both formats and
    whatever the letter case of the extension. *)
Theorem load_data_reader_failure (io : Pandas) (file : UploadedFile)
  (msg : string) :
  let ext := lower (snd (splitext (name file))) in
  (ext = ".csv" /\ read_csv io file = inl msg)
  \/ (ext = ".xlsx" /\ read_excel io file = inl msg) ->
  run (load_data io file)
  = ([st_error ("Error loading " ++ name file ++ ": " ++ msg)], inr None).
Proof.
  intros ext [[He Hr]|[He Hr]]; unfold run, load_data; fold ext; rewrite He; cbn;
    now rewrite Hr.
Qed.

Lemma load_data_reader_failure_witness :
  run (load_data Samples.io_broken (Samples.file "Q3.CSV"))
  = ([st_error "Error loading Q3.CSV: No columns to parse from file"], inr None)
  /\ run (load_data Samples.io_broken (Samples.file "book.Xlsx"))
     = ([st_error "Error loading book.Xlsx: File is not a zip file"], inr None).
Proof.
  split.
  - apply (load_data_reader_failure Samples.io_broken (Samples.file "Q3.CSV")).
    left. split; reflexivity.
  - apply (load_data_reader_failure Samples.io_broken
             (Samples.file "book.Xlsx")).
    right. split; reflexivity.
Defined.

(* ================================================================== *)
(** ** Further properties of names and of the exporter *)

Module PyStrMore.

Import PyStr PyStrFacts.
Local Open Scope string_scope.

Lemma prefix_split (old s : string) :
  prefix old s = true -> exists t, s = old ++ t.
Proof.
  revert s. induction old as [|c old IH]; intros s H.
  - now exists s.
  - destruct s as [|a s]; [discriminate|]. rewrite prefix_cons in H.
    apply andb_true_iff in H as [Hc Hs]. apply Ascii.eqb_eq in Hc. subst a.
    destruct (IH s Hs) as [t ->]. now exists t.
Qed.

(** Replacing a text by itself changes nothing. *)
Lemma replace_scan_same (c : ascii) (old : string) (n : nat) :
  forall s, String.length s <= n ->
            replace_scan (String c old) (String c old) 0 s = s.
Proof.
  induction n as [|n IH]; intros [|a s] Hlen; simpl in Hlen; try reflexivity;
    [lia|].
  destruct (prefix (String c old) (String a s)) eqn:E.
  - destruct (prefix_split _ _ E) as [t Ht]. rewrite Ht.
    rewrite replace_scan_occurrence. rewrite IH; [reflexivity|].
    assert (H : String.length (String a s)
                = String.length (String c old ++ t)) by now rewrite Ht.
    rewrite length_append in H. simpl in H. lia.
  - rewrite replace_scan_mismatch by assumption. rewrite IH by lia.
    reflexivity.
Qed.

Lemma replace_interleave_nothing (s : string) : replace_interleave "" s = s.
Proof. induction s as [|c s IH]; simpl; [reflexivity | now rewrite IH]. Qed.

Lemma replace_same (s old : string) : replace s old old = s.
Proof.
  unfold replace. destruct old as [|c old].
  - apply replace_interleave_nothing.
  - now apply (replace_scan_same c old (String.length s)).
Qed.

(** After an index beyond the last occurrence of [c] there is no [c]. *)
Lemma rfind_after (c : ascii) (s : string) (i : nat) :
  (rfind c s < Z.of_nat i)%Z -> ~ In c (chars (slice_from i s)).
Proof.
  revert i. induction s as [|a s IH]; intros i H.
  - destruct i; simpl; tauto.
  - destruct i as [|i].
    + cbn [slice_from]. apply rfind_absent.
      pose proof (rfind_lower_bound c (String a s)). lia.
    + simpl slice_from. apply IH. simpl in H.
      destruct (0 <=? rfind c s)%Z eqn:E.
      * lia.
      * apply Z.leb_gt in E. lia.
Qed.

Lemma occurs_empty (old : string) : old <> "" -> occurs old "" = false.
Proof. destruct old; [congruence | reflexivity]. Qed.

End PyStrMore.

Import PyStrMore.

(** X3. [os.path.splitext] cuts a name in two parts that concatenate
    back to the name; the extension is empty, or a dot followed by
    characters that are neither a dot nor a slash. *)
Theorem splitext_parts (p : string) :
  (fst (splitext p) ++ snd (splitext p))%string = p
  /\ (snd (splitext p) = ""
      \/ exists rest, snd (splitext p) = String "." rest
                      /\ ~ In "."%char (chars rest)
                      /\ ~ In "/"%char (chars rest)).
Proof.
  split; [apply splitext_concat|].
  destruct (splitext_ext_shape p) as [H|[rest [H Hdot]]]; [now left|].
  right. exists rest. split; [exact H|]. split; [exact Hdot|].
  revert H. unfold splitext.
  destruct (rfind "." p >? rfind "/" p)%Z eqn:E; [|discriminate].
  destruct (has_name_before_dot _ _ _); [|discriminate]. cbn [snd].
  intros H Hin. apply Z.gtb_lt in E.
  pose proof (rfind_lower_bound "/" p) as Hlb.
  apply (rfind_after "/" p (Z.to_nat (rfind "." p))); [lia|].
  rewrite H. now right.
Qed.

(** X4. When the extension of a name does not occur in the rest of the
    name, the name offered for download is the root of the name
    followed by the new extension. *)
Theorem download_name_replaces_extension (file_name new_ext : string) :
  snd (splitext file_name) <> "" ->
  occurs (snd (splitext file_name)) (fst (splitext file_name)) = false ->
  download_name file_name new_ext
  = (fst (splitext file_name) ++ new_ext)%string.
Proof.
  intros Hext Hocc. unfold download_name.
  destruct (splitext_ext_shape file_name) as [He|[rest [He Hn]]];
    [contradiction|].
  rewrite <- (splitext_concat file_name) at 1. rewrite He in *.
  unfold replace.
  replace (fst (splitext file_name) ++ String "." rest)%string
    with (join (String "." rest) [fst (splitext file_name); ""])
    by (cbn [join]; now rewrite append_nil_r).
  rewrite replace_scan_join.
  - cbn [join]. now rewrite append_nil_r.
  - assumption.
  - apply Forall_cons; [assumption|]. apply Forall_cons; [reflexivity|].
    apply Forall_nil.
Qed.

Lemma download_name_replaces_extension_witness :
  download_name "sales.2024.CSV" ".xlsx" = "sales.2024.xlsx".
Proof.
  apply (download_name_replaces_extension "sales.2024.CSV" ".xlsx");
    [discriminate | reflexivity].
Defined.

(** X5. A file that already has the extension of the target format, in
    the same letter case, is offered under its own name. *)
Theorem convert_file_same_extension (io : Pandas) (df : DataFrame)
  (file_name target_format : string) (buffer : list Byte.byte) :
  snd (splitext file_name)
  = (if String.eqb target_format "CSV" then ".csv" else ".xlsx") ->
  (if String.eqb target_format "CSV" then to_csv io df else to_excel io df)
  = inr buffer ->
  run (convert_file io df file_name target_format)
  = ([st_download_button ("Download " ++ file_name) buffer file_name
        (if String.eqb target_format "CSV" then "text/csv" else xlsx_mime)],
     inr tt).
Proof.
  intros Hext Hw.
  rewrite (convert_file_written io df file_name target_format buffer Hw).
  cbn zeta. unfold download_name. rewrite <- Hext.
  now rewrite replace_same.
Qed.

Lemma convert_file_same_extension_witness :
  run (convert_file Samples.io Samples.people "a.csv.old.csv" "CSV")
  = ([st_download_button "Download a.csv.old.csv" [] "a.csv.old.csv"
        "text/csv"], inr tt).
Proof.
  apply (convert_file_same_extension Samples.io Samples.people
           "a.csv.old.csv" "CSV" []); reflexivity.
Defined.

(** X6. An exception of the writer is caught: [convert_file] shows
    "Conversion failed" with the text of the exception, offers nothing
    for download and does not raise. *)
Theorem convert_file_writer_failure (io : Pandas) (df : DataFrame)
  (file_name target_format msg : string) :
  (if String.eqb target_format "CSV" then to_csv io df else to_excel io df)
  = inl msg ->
  run (convert_file io df file_name target_format)
  = ([st_error ("Conversion failed: " ++ msg)], inr tt)
  /\ downloads (trace (run (convert_file io df file_name target_format))) = 0.
Proof.
  intros Hw.
  assert (H : run (convert_file io df file_name target_format)
              = ([st_error ("Conversion failed: " ++ msg)], inr tt)).
  { unfold run, convert_file. destruct (String.eqb target_format "CSV");
      now rewrite Hw. }
  split; [exact H | now rewrite H].
Qed.

Lemma convert_file_writer_failure_witness :
  run (convert_file Samples.io_broken Samples.people "a.csv" "Excel")
  = ([st_error "Conversion failed: No module named 'openpyxl'"], inr tt)
  /\ downloads (trace (run (convert_file Samples.io_broken Samples.people
                              "a.csv" "Excel"))) = 0.
Proof.
  apply (convert_file_writer_failure Samples.io_broken Samples.people "a.csv"
           "Excel"). reflexivity.
Defined.

(* ================================================================== *)

(* ================================================================== *)
(* ================================================================== *)
(** ** Further properties of the cleaner *)

Module FrameMore.

Import Frame FrameFacts.

Lemma fillna_values_length (v : cell) (vals : list cell) :
  List.length (fillna_values v vals) = List.length vals.
Proof. unfold fillna_values. apply length_map. Qed.

Section Mean.

Variable nansum : list cell -> float.

Lemma fill_numeric_series (df : DataFrame) :
  series (fill_numeric nansum df) = map (fill_column nansum) (series df).
Proof. reflexivity. Qed.

Lemma fill_column_label (s : Series) : label (fill_column nansum s) = label s.
Proof. unfold fill_column. now destruct (is_number (kind s)). Qed.

Lemma fill_column_kind (s : Series) : kind (fill_column nansum s) = kind s.
Proof. unfold fill_column. now destruct (is_number (kind s)). Qed.

Lemma fill_column_length (s : Series) :
  List.length (values (fill_column nansum s)) = List.length (values s).
Proof.
  unfold fill_column. destruct (is_number (kind s)); [|reflexivity].
  apply fillna_values_length.
Qed.

Lemma fill_numeric_columns (df : DataFrame) :
  columns (fill_numeric nansum df) = columns df.
Proof.
  unfold columns. rewrite fill_numeric_series, map_map.
  apply map_ext. apply fill_column_label.
Qed.

Lemma fill_numeric_kinds (df : DataFrame) :
  map kind (series (fill_numeric nansum df)) = map kind (series df).
Proof.
  rewrite fill_numeric_series, map_map. apply map_ext. apply fill_column_kind.
Qed.

Lemma fill_numeric_wf (df : DataFrame) : wf df -> wf (fill_numeric nansum df).
Proof.
  intros [Hlen Hnd]. split; [|now rewrite fill_numeric_columns].
  apply Forall_forall. intros s Hin. rewrite fill_numeric_series in Hin.
  apply in_map_iff in Hin as [s0 [<- Hin]]. rewrite fill_column_length.
  rewrite Forall_forall in Hlen. now apply Hlen.
Qed.

Lemma fill_numeric_empty (df : DataFrame) :
  empty (fill_numeric nansum df) = empty df.
Proof.
  unfold empty, len. rewrite fill_numeric_series, length_map. reflexivity.
Qed.

(** With a fill value that is not the missing marker no entry is
    missing afterwards, so a further fill finds nothing to do. *)
Lemma fillna_values_filled (v : cell) (vals : list cell) :
  v <> NaN -> ~ In NaN (fillna_values v vals).
Proof.
  intros Hv Hin. apply in_map_iff in Hin as [c [Hc _]].
  destruct c; congruence.
Qed.

Lemma fillna_values_nothing (w : cell) (vals : list cell) :
  ~ In NaN vals -> fillna_values w vals = vals.
Proof.
  induction vals as [|c vals IH]; intros Hn; [reflexivity|]. simpl.
  rewrite IH by (intros H; apply Hn; now right).
  destruct c; try reflexivity. exfalso. apply Hn. now left.
Qed.

Lemma cell_of_float_match (x : float) (b : bool) (e : PrimFloat.is_nan x = b) :
  let c := (if b as b0 return (PrimFloat.is_nan x = b0 -> cell)
            then fun _ => NaN
            else fun H => Num (mk_float64 (unsigned_zero x)
                                 (unsigned_zero_proper x H))) e in
  (b = true /\ c = NaN)
  \/ (b = false /\ exists q, c = Num q /\ bits q = unsigned_zero x).
Proof.
  destruct b; [left | right]; cbn; eauto.
Qed.

(** A float that is not a number is a missing entry; any other float
    is a number, the sign of zero apart. *)
Lemma cell_of_float_cases (x : float) :
  (PrimFloat.is_nan x = true /\ cell_of_float x = NaN)
  \/ (PrimFloat.is_nan x = false
      /\ exists q, cell_of_float x = Num q /\ bits q = unsigned_zero x).
Proof.
  exact (cell_of_float_match x (PrimFloat.is_nan x) eq_refl).
Qed.

(** The mean of a column is missing when the column has no number, or
    when the quotient of the float sum is not a number. *)
Lemma mean_cases (vals : list cell) :
  (mean nansum vals = NaN
   /\ (present vals = []
       \/ PrimFloat.is_nan
            (PrimFloat.div (nansum vals)
               (float_of_nat (List.length (present vals)))) = true))
  \/ exists q, mean nansum vals = Num q.
Proof.
  unfold mean. destruct (present vals) as [|x xs] eqn:E; [left; auto|].
  destruct (cell_of_float_cases
              (PrimFloat.div (nansum vals)
                 (float_of_nat (List.length (x :: xs)))))
    as [[Hn Hc]|[_ [q [Hc _]]]]; rewrite Hc; [left; auto | right; eauto].
Qed.

Lemma fill_with_mean_twice (s : Series) :
  fill_with_mean nansum (fill_with_mean nansum s) = fill_with_mean nansum s.
Proof.
  unfold fill_with_mean. cbn [label kind values]. f_equal.
  destruct (mean_cases (values s)) as [[Hm _]|[q Hm]]; rewrite Hm.
  - rewrite fillna_values_missing, Hm. apply fillna_values_missing.
  - apply fillna_values_nothing. apply fillna_values_filled. discriminate.
Qed.

Lemma fill_numeric_twice (df : DataFrame) :
  fill_numeric nansum (fill_numeric nansum df) = fill_numeric nansum df.
Proof.
  unfold fill_numeric at 1 3. rewrite fill_numeric_series. cbn [index].
  f_equal. rewrite map_map. apply map_ext. intros s.
  unfold fill_column. destruct (is_number (kind s)) eqn:E; [|now rewrite E].
  cbn [kind fill_with_mean]. rewrite E. apply fill_with_mean_twice.
Qed.

End Mean.

(** *** Rows kept by the removal of duplicates *)

Lemma kept_rows (rs seen : list (list cell)) :
  let kept := compress (map negb (duplicated_from seen rs)) rs in
  NoDup kept
  /\ (forall r, In r kept <-> In r rs /\ ~ In r seen)
  .
Proof.
  revert seen. induction rs as [|r rs IH]; intros seen.
  - cbn. split; [constructor | tauto].
  - cbn [duplicated_from]. destruct (existsb (row_eqb r) seen) eqn:E; cbn.
    + destruct (IH seen) as [Hnd Hin]. split; [exact Hnd|].
      intros x. rewrite (Hin x). apply mem_row_In in E. split; [tauto|].
      intros [[<-|Hx] Hn]; [contradiction | tauto].
    + assert (Hr : ~ In r seen).
      { intros H. apply mem_row_In in H. congruence. }
      destruct (IH (r :: seen)) as [Hnd Hin]. split.
      * constructor; [|exact Hnd]. intros H. apply Hin in H. simpl in H.
        tauto.
      * intros x. simpl. rewrite (Hin x). simpl. split.
        -- intros [<-|[Hx Hn]]; tauto.
        -- intros [[<-|Hx] Hn]; [tauto|].
           destruct (row_eqb r x) eqn:Erx.
           ++ apply row_eqb_eq in Erx. tauto.
           ++ right. split; [exact Hx|]. intros [Heq|Hsx]; [|tauto].
              apply row_eqb_eq in Heq. congruence.
Qed.

(** On rows that are all distinct the scan marks nothing. *)
Lemma duplicated_from_distinct (rs seen : list (list cell)) :
  NoDup rs -> (forall r, In r rs -> ~ In r seen) ->
  duplicated_from seen rs = repeat false (List.length rs).
Proof.
  revert seen. induction rs as [|r rs IH]; intros seen Hnd Hs; [reflexivity|].
  apply NoDup_cons_iff in Hnd as [Hr Hnd]. cbn [duplicated_from].
  destruct (existsb (row_eqb r) seen) eqn:E.
  - apply mem_row_In in E. exfalso. apply (Hs r); [now left | exact E].
  - cbn. f_equal. apply IH; [exact Hnd|].
    intros x Hx [<-|Hin]; [contradiction|]. apply (Hs x); [now right | exact Hin].
Qed.

Lemma drop_duplicates_kinds (df : DataFrame) :
  map kind (series (drop_duplicates df)) = map kind (series df).
Proof.
  unfold drop_duplicates. destruct (empty df); [reflexivity|].
  unfold getitem_mask. cbn [series]. now rewrite map_map.
Qed.

(** A table with a row and a column keeps its first row. *)
Lemma drop_duplicates_not_empty (df : DataFrame) :
  empty df = false -> empty (drop_duplicates df) = false.
Proof.
  intros E. unfold drop_duplicates, duplicated. rewrite E.
  destruct df as [idx ss]. unfold empty, rows, len, getitem_mask in *.
  cbn [index series] in *. apply orb_false_iff in E as [El Es].
  apply orb_false_iff. split.
  - destruct idx as [|i idx]; [discriminate|]. reflexivity.
  - now rewrite length_map.
Qed.

End FrameMore.

Import FrameMore.

(** X7. Whatever boxes are ticked, [clean_data] returns a table that
    keeps the invariant of tables, has the columns of its input with
    their labels and types in the same order, has no more rows than
    its input, and is not empty when its input is not. *)
Theorem clean_data_keeps_shape (io : Pandas) (ui : Session)
  (df : DataFrame) (file_name : string) :
  wf df ->
  exists t after,
    run (clean_data io ui df file_name) = (t, inr after)
    /\ wf after
    /\ columns after = columns df
    /\ map kind (series after) = map kind (series df)
    /\ len after <= len df
    /\ (empty df = false -> empty after = false).
Proof.
  intros Hwf. rewrite (clean_data_run io ui df file_name (proj2 Hwf)).
  cbn zeta.
  set (df1 := if sidebar_checked ui ("Remove duplicates in " ++ file_name)
              then drop_duplicates df else df).
  assert (H1 : wf df1 /\ columns df1 = columns df
               /\ map kind (series df1) = map kind (series df)
               /\ len df1 <= len df
               /\ (empty df = false -> empty df1 = false)).
  { unfold df1.
    destruct (sidebar_checked ui ("Remove duplicates in " ++ file_name)).
    - repeat split.
      + now apply drop_duplicates_wf.
      + now apply drop_duplicates_wf.
      + apply drop_duplicates_columns.
      + apply drop_duplicates_kinds.
      + apply drop_duplicates_len.
      + apply drop_duplicates_not_empty.
    - repeat split; auto; apply Hwf. }
  destruct H1 as [Hw1 [Hc1 [Hk1 [Hl1 He1]]]].
  eexists _, _. split; [reflexivity|].
  destruct (sidebar_checked ui ("Fill missing values in " ++ file_name)).
  - split; [now apply fill_numeric_wf|].
    split; [now rewrite fill_numeric_columns|].
    split; [now rewrite fill_numeric_kinds|].
    split; [exact Hl1|]. intros E. rewrite fill_numeric_empty. auto.
  - repeat split; auto; apply Hw1.
Qed.

Lemma clean_data_keeps_shape_witness :
  exists t after,
    run (clean_data Samples.io (Samples.ui_all []) Samples.people "a.csv")
    = (t, inr after)
    /\ wf after
    /\ columns after = ["name"; "age"]
    /\ map kind (series after) = [object; number]
    /\ len after <= 5
    /\ (empty Samples.people = false -> empty after = false).
Proof.
  exact (clean_data_keeps_shape Samples.io (Samples.ui_all []) Samples.people
           "a.csv" wf_people).
Defined.

(** X8. With only the box to fill ticked, cleaning the table that a
    first cleaning returned changes nothing: the fill is idempotent. *)
Theorem clean_data_fill_idempotent (io : Pandas) (ui : Session)
  (df : DataFrame) (file_name : string) :
  wf df ->
  sidebar_checked ui ("Remove duplicates in " ++ file_name) = false ->
  sidebar_checked ui ("Fill missing values in " ++ file_name) = true ->
  exists once,
    outcome (run (clean_data io ui df file_name)) = inr once
    /\ run (clean_data io ui once file_name)
       = ([st_sidebar_checkbox ("Remove duplicates in " ++ file_name);
           st_sidebar_checkbox ("Fill missing values in " ++ file_name);
           st_sidebar_write "Filled missing numeric values"],
          inr once).
Proof.
  intros Hwf Hdedup Hfill. exists (fill_numeric (nansum io) df). split.
  - rewrite (clean_data_run io ui df file_name (proj2 Hwf)).
    unfold outcome. cbn [snd]. now rewrite Hdedup, Hfill.
  - rewrite clean_data_run by (rewrite fill_numeric_columns; apply Hwf).
    rewrite Hdedup, Hfill, fill_numeric_twice. reflexivity.
Qed.

Lemma clean_data_fill_idempotent_witness :
  exists once,
    outcome (run (clean_data Samples.io Samples.ui_fill Samples.pets "a.csv"))
    = inr once
    /\ run (clean_data Samples.io Samples.ui_fill once "a.csv")
       = ([st_sidebar_checkbox "Remove duplicates in a.csv";
           st_sidebar_checkbox "Fill missing values in a.csv";
           st_sidebar_write "Filled missing numeric values"],
          inr once).
Proof.
  apply (clean_data_fill_idempotent Samples.io Samples.ui_fill Samples.pets
           "a.csv" wf_pets); reflexivity.
Defined.

(** X9. When the box to fill is ticked, a numeric column of the table
    returned still has a missing entry only when its mean is missing:
    the column has no number at all, or the quotient of its float sum
    is not a number, as for a column that holds both infinities. *)
Theorem clean_data_fill_leaves_no_gap (io : Pandas) (ui : Session)
  (df : DataFrame) (file_name : string) :
  wf df ->
  sidebar_checked ui ("Fill missing values in " ++ file_name) = true ->
  exists after,
    outcome (run (clean_data io ui df file_name)) = inr after
    /\ forall s, In s (series after) -> kind s = number ->
                 In NaN (values s) ->
                 mean (nansum io) (values s) = NaN
                 /\ (present (values s) = []
                     \/ PrimFloat.is_nan
                          (PrimFloat.div (nansum io (values s))
                             (float_of_nat (List.length (present (values s)))))
                        = true).
Proof.
  intros Hwf Hfill. rewrite (clean_data_run io ui df file_name (proj2 Hwf)).
  unfold outcome. cbn [snd]. rewrite Hfill. eexists. split; [reflexivity|].
  intros s Hin Hk. rewrite fill_numeric_series in Hin.
  apply in_map_iff in Hin as [s0 [<- _]]. unfold fill_column in *.
  destruct (is_number (kind s0)) eqn:E.
  - cbn [fill_with_mean values].
    destruct (mean_cases (nansum io) (values s0)) as [[Hm Hp]|[q Hm]];
      rewrite Hm.
    + rewrite fillna_values_missing. intros _. split; assumption.
    + intros Hnan. exfalso. revert Hnan. apply fillna_values_filled.
      discriminate.
  - rewrite Hk in E. discriminate.
Qed.

Lemma clean_data_fill_leaves_no_gap_witness :
  exists after,
    outcome (run (clean_data Samples.io Samples.ui_fill Samples.pets "a.csv"))
    = inr after
    /\ forall s, In s (series after) -> kind s = number ->
                 In NaN (values s) ->
                 mean float_sum (values s) = NaN
                 /\ (present (values s) = []
                     \/ PrimFloat.is_nan
                          (PrimFloat.div (float_sum (values s))
                             (float_of_nat (List.length (present (values s)))))
                        = true).
Proof.
  apply (clean_data_fill_leaves_no_gap Samples.io Samples.ui_fill
           Samples.pets "a.csv" wf_pets). reflexivity.
Defined.

(** A column with both infinities and a missing entry keeps the
    missing entry: its mean is not a number. *)
Example clean_data_fill_keeps_gap :
  outcome
    (run (clean_data Samples.io Samples.ui_fill
            {| index := [0; 1; 2];
               series := [ {| label := "x"; kind := number;
                              values := [cell_of_float infinity;
                                         cell_of_float neg_infinity;
                                         NaN] |} ] |}
            "a.csv"))
  = inr {| index := [0; 1; 2];
           series := [ {| label := "x"; kind := number;
                          values := [cell_of_float infinity;
                                     cell_of_float neg_infinity;
                                     NaN] |} ] |}.
Proof. reflexivity. Qed.

(** X10. With only the box to remove duplicates ticked, on a table
    with at least one column, no two rows of the table returned are
    equal and the rows that occur in it are the rows that occur in the
    input. *)
Theorem clean_data_rows_distinct (io : Pandas) (ui : Session)
  (df : DataFrame) (file_name : string) :
  wf df -> series df <> [] ->
  sidebar_checked ui ("Remove duplicates in " ++ file_name) = true ->
  sidebar_checked ui ("Fill missing values in " ++ file_name) = false ->
  exists after,
    outcome (run (clean_data io ui df file_name)) = inr after
    /\ NoDup (rows after)
    /\ forall r, In r (rows after) <-> In r (rows df).
Proof.
  intros Hwf Hcol Hdedup Hfill.
  rewrite (clean_data_run io ui df file_name (proj2 Hwf)).
  unfold outcome. cbn [snd]. rewrite Hdedup, Hfill.
  eexists. split; [reflexivity|].
  rewrite (drop_duplicates_first_occurrences df Hwf Hcol).
  rewrite getitem_mask_rows
    by (auto; now rewrite first_occurrences_length, rows_length).
  rewrite <- duplicated_first_occurrences.
  destruct (kept_rows (rows df) []) as [Hnd Hin]. split; [exact Hnd|].
  intros r. rewrite (Hin r). simpl. tauto.
Qed.

Lemma clean_data_rows_distinct_witness :
  exists after,
    outcome (run (clean_data Samples.io Samples.ui_dedup Samples.people
                    "a.csv"))
    = inr after
    /\ NoDup (rows after)
    /\ forall r, In r (rows after) <-> In r (rows Samples.people).
Proof.
  apply (clean_data_rows_distinct Samples.io Samples.ui_dedup Samples.people
           "a.csv" wf_people); [discriminate | reflexivity | reflexivity].
Defined.

(** X11. On a table whose rows are all distinct, removing duplicates
    returns the table itself and writes that 0 duplicates were
    removed. *)
Theorem clean_data_nothing_to_remove (io : Pandas) (ui : Session)
  (df : DataFrame) (file_name : string) :
  wf df -> NoDup (rows df) ->
  sidebar_checked ui ("Remove duplicates in " ++ file_name) = true ->
  sidebar_checked ui ("Fill missing values in " ++ file_name) = false ->
  run (clean_data io ui df file_name)
  = ([st_sidebar_checkbox ("Remove duplicates in " ++ file_name);
      st_sidebar_write "Removed 0 duplicates";
      st_sidebar_checkbox ("Fill missing values in " ++ file_name)],
     inr df).
Proof.
  intros Hwf Hnd Hdedup Hfill.
  assert (Hd : drop_duplicates df = df).
  { unfold drop_duplicates, duplicated. destruct (empty df); [reflexivity|].
    rewrite duplicated_from_distinct by (auto; intros r _ []).
    rewrite map_repeat, rows_length. now apply getitem_mask_all. }
  rewrite (clean_data_run io ui df file_name (proj2 Hwf)).
  rewrite Hdedup, Hfill, Hd, Z.sub_diag. reflexivity.
Qed.

Lemma clean_data_nothing_to_remove_witness :
  run (clean_data Samples.io Samples.ui_dedup Samples.pets "a.csv")
  = ([st_sidebar_checkbox "Remove duplicates in a.csv";
      st_sidebar_write "Removed 0 duplicates";
      st_sidebar_checkbox "Fill missing values in a.csv"],
     inr Samples.pets).
Proof.
  apply (clean_data_nothing_to_remove Samples.io Samples.ui_dedup
           Samples.pets "a.csv" wf_pets); [|reflexivity|reflexivity].
  repeat constructor; simpl; intuition discriminate.
Defined.

(* ================================================================== *)
(** ** Further properties of the column selector *)

Lemma getitem_list_columns_of (df r : DataFrame) (keys : list string) :
  getitem_list df keys = inr r ->
  index r = index df /\ forall s, In s (series r) -> In s (series df).
Proof.
  unfold getitem_list.
  destruct (filter _ keys) as [|k nf].
  - intros H. injection H as <-. split; [reflexivity|]. cbn [series].
    intros s Hin. apply in_flat_map in Hin as [k [_ Hin]].
    now apply filter_In in Hin.
  - destruct (Nat.eqb _ _); discriminate.
Qed.

Lemma filter_columns_columns_of (df r : DataFrame) (selected : list string) :
  filter_columns df selected = inr r ->
  index r = index df /\ forall s, In s (series r) -> In s (series df).
Proof.
  unfold filter_columns.
  destruct (list_eq_dec string_dec selected (columns df)).
  - intros H. injection H as <-. auto.
  - destruct (set_eqb selected (columns df));
      apply getitem_list_columns_of.
Qed.

(** X12. Whatever the user picked in the multiselect,
    [handle_column_selection] does not raise: it returns a table with
    the rows of its input whose columns are columns of the input. *)
Theorem handle_column_selection_total (ui : Session) (df : DataFrame)
  (file_name : string) :
  exists r,
    run (handle_column_selection ui df file_name)
    = ([st_multiselect ("Select columns for " ++ file_name)
          (columns df) (columns df)], inr r)
    /\ index r = index df
    /\ forall s, In s (series r) -> In s (series df).
Proof.
  destruct (chosen_columns_present ui df file_name) as [r Hr].
  exists r. split.
  - unfold run. rewrite (handle_column_selection_fresh ui df file_name []);
      [now rewrite Hr | intros []].
  - now apply filter_columns_columns_of in Hr.
Qed.

Lemma filter_columns_labels (df : DataFrame) (selected : list string) :
  NoDup (columns df) ->
  (forall k, In k selected -> In k (columns df)) ->
  exists r, filter_columns df selected = inr r
            /\ index r = index df
            /\ columns r = selected
            /\ map Some (series r) = map (column df) selected.
Proof.
  intros Hnd Hin. unfold filter_columns.
  destruct (list_eq_dec string_dec selected (columns df)) as [->|Hne].
  - exists df. repeat split. now apply columns_by_label.
  - destruct (getitem_list_selection df selected Hnd Hin) as [r [Hr H]].
    exists r. rewrite Hr. now destruct (set_eqb selected (columns df)).
Qed.

Lemma map_Some_injective {A : Type} (l l' : list A) :
  map Some l = map Some l' -> l = l'.
Proof.
  revert l'. induction l as [|x l IH]; intros [|y l'] H; try discriminate;
    [reflexivity|].
  injection H as -> H. now rewrite (IH l' H).
Qed.

(** X13. Selecting in two steps is selecting in one: after a selection
    of distinct labels of a table, a selection among those labels
    gives what it gives on the table itself. *)
Theorem filter_columns_narrowing (df r1 : DataFrame)
  (first second : list string) :
  NoDup (columns df) -> NoDup first ->
  (forall k, In k first -> In k (columns df)) ->
  (forall k, In k second -> In k first) ->
  filter_columns df first = inr r1 ->
  filter_columns r1 second = filter_columns df second
  /\ exists r2, filter_columns df second = inr r2 /\ columns r2 = second.
Proof.
  intros Hnd Hnd1 Hsub1 Hsub2 Hr1.
  destruct (filter_columns_labels df first Hnd Hsub1)
    as [r1' [Hr1' [Hi1 [Hc1 Hs1]]]].
  rewrite Hr1 in Hr1'. injection Hr1' as <-.
  assert (Hnd_r1 : NoDup (columns r1)) by now rewrite Hc1.
  assert (Hsub2' : forall k, In k second -> In k (columns r1))
    by (intros k Hk; rewrite Hc1; auto).
  destruct (filter_columns_labels r1 second Hnd_r1 Hsub2')
    as [r2 [Hr2 [Hi2 [Hc2 Hs2]]]].
  destruct (filter_columns_labels df second Hnd
              (fun k Hk => Hsub1 k (Hsub2 k Hk)))
    as [r2' [Hr2' [Hi2' [Hc2' Hs2']]]].
  split; [|exists r2'; now split].
  rewrite Hr2, Hr2'. f_equal.
  assert (Hcol : forall k, In k second -> column r1 k = column df k).
  { intros k Hk. apply Hsub2' in Hk. unfold columns in Hk.
    apply in_map_iff in Hk as [s [<- Hs]].
    unfold columns in Hc1. rewrite <- Hc1, map_map in Hs1.
    rewrite <- (ext_in_map Hs1 s Hs). unfold column.
    now apply find_label_present. }
  destruct r2 as [i2 s2], r2' as [i2' s2']. cbn [index series] in *.
  f_equal; [congruence|]. apply map_Some_injective.
  rewrite Hs2, Hs2'. now apply map_ext_in.
Qed.

Lemma filter_columns_narrowing_witness :
  filter_columns
    {| index := index Samples.pets;
       series := [ {| label := "weight"; kind := number;
                      values := [NaN; NaN] |};
                   {| label := "pet"; kind := object;
                      values := [Str "rex"; Str "tom"] |} ] |}
    ["pet"]
  = filter_columns Samples.pets ["pet"]
  /\ exists r2, filter_columns Samples.pets ["pet"] = inr r2
                /\ columns r2 = ["pet"].
Proof.
  apply (filter_columns_narrowing Samples.pets _ ["weight"; "pet"] ["pet"]).
  - exact (proj2 wf_pets).
  - repeat constructor; simpl; intuition discriminate.
  - simpl. intuition.
  - simpl. intuition.
  - reflexivity.
Defined.


(* ================================================================== *)
(** ** Further properties of the orchestrator *)

(** X14. Every uploaded file is accounted for when the files that are
    not passed over get pairwise different download names (so they
    have pairwise different names). [main] then does not raise; it
    shows one warning for each file the loader returned no table or an
    empty table for (no row, or no column) and no other warning; for a
    batch that is not empty the success message comes last; when the
    writers do not raise it offers one result for each other file, so
    results and warnings add up to the number of files. *)
Theorem main_accounts_for_every_file (io : Pandas) (ui : Session) :
  NoDup (map (fun f => download_name (name f)
                         (new_ext_of (conversion_format_of ui)))
           (filter (fun f => negb (passed_over io f)) (uploaded ui))) ->
  outcome (run (main io ui)) = inr tt
  /\ warnings (trace (run (main io ui)))
     = List.length (filter (passed_over io) (uploaded ui))
  /\ (uploaded ui <> [] ->
      exists t, trace (run (main io ui)) = t ++ [all_processed])
  /\ (writers_total io ->
      downloads (trace (run (main io ui)))
      = List.length (filter (fun f => negb (passed_over io f)) (uploaded ui))
      /\ downloads (trace (run (main io ui)))
         + warnings (trace (run (main io ui)))
         = List.length (uploaded ui)).
Proof.
  intros Hnd.
  assert (Hsum : forall files : list UploadedFile,
             List.length (filter (fun f => negb (passed_over io f)) files)
             + List.length (filter (passed_over io) files)
             = List.length files).
  { induction files as [|f files IH]; [reflexivity|]. simpl.
    destruct (passed_over io f); simpl; lia. }
  destruct (uploaded ui) as [|f files] eqn:E.
  - rewrite (main_without_files io ui E). split; [reflexivity|].
    split; [reflexivity|]. split; [congruence|].
    intros _. split; reflexivity.
  - rewrite (main_runs io ui) by congruence. rewrite E.
    destruct (loop_accounts io ui (conversion_format_of ui)
                (List.length (f :: files)) (f :: files) 0
                [file_uploader_id;
                 radio_id "Choose output format:" ["CSV"; "Excel"]] Hnd)
      as [t [Ht [Hw Hd]]].
    { intros g _ _ id [<-|[<-|[]]] H; exact H. }
    rewrite (bind_result _ _ _ _ _ Ht).
    erewrite bind_emit_plain by reflexivity.
    rewrite (emit_plain all_processed _ eq_refl).
    unfold prepend, trace, outcome. cbn [fst snd].
    split; [reflexivity|].
    rewrite !warnings_app, !downloads_app, Hw.
    change (warnings prelude) with 0. change (downloads prelude) with 0.
    change (warnings [progress_bar_empty]) with 0.
    change (warnings [all_processed]) with 0.
    change (downloads [progress_bar_empty]) with 0.
    change (downloads [all_processed]) with 0.
    split; [lia|]. split.
    + intros _. exists (prelude ++ t ++ [progress_bar_empty]).
      now rewrite <- !app_assoc.
    + intros Hwt. rewrite (Hd Hwt). split; [lia|].
      rewrite <- (Hsum (f :: files)). lia.
Qed.

Lemma main_accounts_for_every_file_witness :
  let ui := Samples.ui_all [Samples.file "a.csv"; Samples.file "b.csv";
                            Samples.file "c.xlsx"] in
  outcome (run (main Samples.io ui)) = inr tt
  /\ warnings (trace (run (main Samples.io ui))) = 1
  /\ downloads (trace (run (main Samples.io ui))) = 2
  /\ (exists t, trace (run (main Samples.io ui)) = t ++ [all_processed]).
Proof.
  intros ui.
  destruct (main_accounts_for_every_file Samples.io ui)
    as [Ho [Hw [Hlast Hd]]].
  - repeat constructor; simpl; intuition discriminate.
  - destruct Hd as [Hd _].
    + intros df. split; exists []; reflexivity.
    + split; [exact Ho|]. split; [exact Hw|]. split; [exact Hd|].
      apply Hlast. discriminate.
Defined.

(** With readers and writers that always raise every file gets its
    warning and nothing is offered. *)
Example main_accounts_broken :
  let ui := Samples.ui_all [Samples.file "a.csv"; Samples.file "b.xlsx"] in
  warnings (trace (run (main Samples.io_broken ui))) = 2
  /\ downloads (trace (run (main Samples.io_broken ui))) = 0.
Proof. split; reflexivity. Qed.

Lemma rows_of_firstn (k n : nat) (cols : list (list cell)) :
  Forall (fun c => List.length c = n) cols ->
  rows_of (Nat.min k n) (map (firstn k) cols) = firstn k (rows_of n cols).
Proof.
  revert n cols. induction k as [|k IH]; intros n cols Hc; [reflexivity|].
  destruct n as [|n]; [reflexivity|].
  cbn [Nat.min rows_of firstn]. rewrite !map_map.
  assert (Htl : Forall (fun c => List.length c = n) (map (@tl cell) cols)).
  { apply Forall_forall. intros c Hin.
    apply in_map_iff in Hin as [c0 [<- Hin0]].
    rewrite Forall_forall in Hc. specialize (Hc _ Hin0).
    destruct c0; simpl in *; [discriminate | lia]. }
  rewrite <- (IH n (map (@tl cell) cols) Htl), map_map. f_equal.
  - apply map_ext_in. intros c Hin. rewrite Forall_forall in Hc.
    specialize (Hc _ Hin). destruct c; [discriminate | reflexivity].
  - f_equal. apply map_ext_in. intros c Hin. rewrite Forall_forall in Hc.
    specialize (Hc _ Hin). destruct c; [discriminate | reflexivity].
Qed.

(** X15. The preview [df.head()] of a table is a table with the same
    columns whose rows are the first five rows of the table, all of
    them when the table has five rows or fewer. *)
Theorem head_first_rows (df : DataFrame) :
  wf df ->
  wf (head df)
  /\ columns (head df) = columns df
  /\ len (head df) = Nat.min 5 (len df)
  /\ rows (head df) = firstn 5 (rows df)
  /\ (len df <= 5 -> head df = df).
Proof.
  intros [Hlen Hnd].
  assert (Hcols : columns (head df) = columns df).
  { unfold columns, head. cbn [series]. now rewrite map_map. }
  assert (Hl : len (head df) = Nat.min 5 (len df)).
  { unfold len, head. cbn [index]. apply length_firstn. }
  split; [|split; [exact Hcols|split; [exact Hl|split]]].
  - split; [|now rewrite Hcols]. apply Forall_forall. intros s Hin.
    unfold head in Hin. cbn [series] in Hin.
    apply in_map_iff in Hin as [s0 [<- Hin]]. cbn [values]. rewrite Hl.
    rewrite length_firstn. rewrite Forall_forall in Hlen.
    now rewrite (Hlen _ Hin).
  - unfold rows. rewrite Hl. unfold head. cbn [series]. rewrite map_map.
    cbn [values]. rewrite <- (map_map values (firstn 5)).
    apply rows_of_firstn. apply Forall_forall. intros c Hin.
    apply in_map_iff in Hin as [s [<- Hin]]. rewrite Forall_forall in Hlen.
    now apply Hlen.
  - intros H5. destruct df as [idx ss]. unfold head, len in *.
    cbn [index series] in *. f_equal.
    + now apply firstn_all2.
    + rewrite <- (map_id ss) at 2. apply map_ext_in. intros s Hin.
      rewrite Forall_forall in Hlen. specialize (Hlen _ Hin).
      rewrite firstn_all2 by lia. now destruct s.
Qed.

Lemma head_first_rows_witness :
  wf (head Samples.people)
  /\ columns (head Samples.people) = ["name"; "age"]
  /\ len (head Samples.people) = 5
  /\ rows (head Samples.people) = firstn 5 (rows Samples.people)
  /\ (len Samples.people <= 5 -> head Samples.people = Samples.people).
Proof. exact (head_first_rows Samples.people wf_people). Defined.

(** X16. For a file that loads, with the multiselect left at its
    default, in a run that has no element of a file of this name or of
    this download name yet, the turn of the loop does not raise; it
    previews the table as loaded, before any cleaning, and what it
    offers for download last is what the writer made of the cleaned
    table. *)
Theorem process_file_exports_cleaned (io : Pandas) (ui : Session)
  (conversion_format : string) (total i : nat) (file : UploadedFile)
  (df after : DataFrame) (buffer : list Byte.byte) (reg : list element_id) :
  outcome (run (load_data io file)) = inr (Some df) ->
  empty df = false ->
  outcome (run (clean_data io ui df (name file))) = inr after ->
  picked ui ("Select columns for " ++ name file) = None ->
  (if String.eqb conversion_format "CSV" then to_csv io after
   else to_excel io after) = inr buffer ->
  (forall id, In id reg ->
     ~ of_file (name file)
         (download_name (name file) (new_ext_of conversion_format)) id) ->
  exists t,
    process_file io ui conversion_format total i file reg
    = (t ++ [st_download_button
               ("Download "
                ++ download_name (name file) (new_ext_of conversion_format))
               buffer
               (download_name (name file) (new_ext_of conversion_format))
               (mime_of conversion_format)],
       inr tt)
    /\ In (st_dataframe (head df)) t
    /\ downloads t = 0 /\ warnings t = 0.
Proof.
  intros Hload Hempty Hclean Hpick Hwrite Hreg.
  destruct (process_file_fresh io ui conversion_format total i file df reg
              Hload Hempty Hreg)
    as [tc [after' [sel [Hc [Hd [Hw [_ [Hsel Hrun]]]]]]]].
  rewrite Hc in Hclean. cbn [outcome snd] in Hclean. injection Hclean as ->.
  unfold chosen_columns in Hsel. rewrite Hpick in Hsel.
  unfold filter_columns in Hsel.
  destruct (list_eq_dec string_dec (columns after) (columns after));
    [|congruence].
  injection Hsel as <-.
  rewrite (convert_file_written io after (name file) conversion_format buffer
             Hwrite) in Hrun.
  cbn [trace outcome fst snd] in Hrun. rewrite Hrun.
  unfold new_ext_of, mime_of.
  destruct (checked ui ("Show visualization for " ++ name file)).
  - eexists ([_; _; _; _] ++ tc ++ [_; _; _]). split.
    + rewrite <- !app_assoc. reflexivity.
    + split; [simpl; auto|].
      rewrite !downloads_app, !warnings_app, Hd, Hw. split; reflexivity.
  - eexists ([_; _; _; _] ++ tc ++ [_; _]). split.
    + rewrite <- !app_assoc. reflexivity.
    + split; [simpl; auto|].
      rewrite !downloads_app, !warnings_app, Hd, Hw. split; reflexivity.
Qed.

Lemma process_file_exports_cleaned_witness :
  exists t,
    process_file Samples.io (Samples.ui_all []) "CSV" 2 1
      (Samples.file "a.csv")
      [file_uploader_id; radio_id "Choose output format:" ["CSV"; "Excel"];
       checkbox_id "Remove duplicates in c.csv";
       download_button_id "Download c.csv" "c.csv" "text/csv"]
    = (t ++ [st_download_button "Download a.csv" [] "a.csv" "text/csv"],
       inr tt)
    /\ In (st_dataframe (head Samples.people)) t
    /\ downloads t = 0 /\ warnings t = 0.
Proof.
  apply (process_file_exports_cleaned Samples.io (Samples.ui_all []) "CSV" 2 1
           (Samples.file "a.csv") Samples.people
           (fill_numeric float_sum (drop_duplicates Samples.people)) []);
    try reflexivity.
  intros id [<-|[<-|[<-|[<-|[]]]]]; cbn; intuition discriminate.
Defined.

(** X17. When the user deselects every column the file is not
    skipped: in a run that has no element of a file of this name or of
    this download name yet, the turn of the loop hands the writer a
    table with the rows of the cleaned table and no column, and offers
    the result. *)
Theorem process_file_exports_no_column (io : Pandas) (ui : Session)
  (conversion_format : string) (total i : nat) (file : UploadedFile)
  (df after : DataFrame) (buffer : list Byte.byte) (reg : list element_id) :
  outcome (run (load_data io file)) = inr (Some df) ->
  empty df = false ->
  outcome (run (clean_data io ui df (name file))) = inr after ->
  picked ui ("Select columns for " ++ name file) = Some [] ->
  (if String.eqb conversion_format "CSV"
   then to_csv io {| index := index after; series := [] |}
   else to_excel io {| index := index after; series := [] |}) = inr buffer ->
  (forall id, In id reg ->
     ~ of_file (name file)
         (download_name (name file) (new_ext_of conversion_format)) id) ->
  exists t,
    process_file io ui conversion_format total i file reg
    = (t ++ [st_download_button
               ("Download "
                ++ download_name (name file) (new_ext_of conversion_format))
               buffer
               (download_name (name file) (new_ext_of conversion_format))
               (mime_of conversion_format)],
       inr tt)
    /\ downloads t = 0 /\ warnings t = 0.
Proof.
  intros Hload Hempty Hclean Hpick Hwrite Hreg.
  destruct (process_file_fresh io ui conversion_format total i file df reg
              Hload Hempty Hreg)
    as [tc [after' [sel [Hc [Hd [Hw [_ [Hsel Hrun]]]]]]]].
  rewrite Hc in Hclean. cbn [outcome snd] in Hclean. injection Hclean as ->.
  unfold chosen_columns in Hsel. rewrite Hpick in Hsel. cbn [filter] in Hsel.
  assert (Hs : sel = {| index := index after; series := [] |}).
  { unfold filter_columns in Hsel.
    destruct (list_eq_dec string_dec [] (columns after)) as [Heq|Hne].
    - injection Hsel as <-. destruct after as [idx ss].
      unfold columns in Heq. cbn [series] in Heq.
      destruct ss; [reflexivity | discriminate].
    - unfold getitem_list in Hsel. cbn [filter flat_map] in Hsel.
      destruct (set_eqb [] (columns after)); now injection Hsel as <-. }
  subst sel.
  rewrite (convert_file_written io _ (name file) conversion_format buffer
             Hwrite) in Hrun.
  cbn [trace outcome fst snd] in Hrun. rewrite Hrun.
  unfold new_ext_of, mime_of.
  destruct (checked ui ("Show visualization for " ++ name file)).
  - eexists ([_; _; _; _] ++ tc ++ [_; _; _]). split.
    + rewrite <- !app_assoc. reflexivity.
    + rewrite !downloads_app, !warnings_app, Hd, Hw. split; reflexivity.
  - eexists ([_; _; _; _] ++ tc ++ [_; _]). split.
    + rewrite <- !app_assoc. reflexivity.
    + rewrite !downloads_app, !warnings_app, Hd, Hw. split; reflexivity.
Qed.

Lemma process_file_exports_no_column_witness :
  exists t,
    process_file Samples.io
      {| uploaded := []; radio_choice := "CSV";
         sidebar_checked := fun _ => false;
         checked := fun _ => false;
         picked := fun _ => Some [] |}
      "Excel" 1 0 (Samples.file "a.csv")
      [file_uploader_id; radio_id "Choose output format:" ["CSV"; "Excel"]]
    = (t ++ [st_download_button "Download a.xlsx" [] "a.xlsx" xlsx_mime],
       inr tt)
    /\ downloads t = 0 /\ warnings t = 0.
Proof.
  apply (process_file_exports_no_column Samples.io _ "Excel" 1 0
           (Samples.file "a.csv") Samples.people Samples.people []);
    try reflexivity.
  intros id [<-|[<-|[]]] H; exact H.
Defined.

Lemma filter_all_kept {A : Type} (f : A -> bool) (l : list A) :
  List.length (filter f l) = List.length l -> forall x, In x l -> f x = true.
Proof.
  induction l as [|a l IH]; intros Hlen x Hin; [contradiction|].
  simpl in Hlen. pose proof (filter_length_le f l) as Hle.
  destruct (f a) eqn:E; simpl in Hlen; [|lia].
  destruct Hin as [<-|Hin]; [exact E | apply IH; [lia | exact Hin]].
Qed.

(** X18. When the selection fails, the [KeyError] names the selected
    labels that are not columns of the table and no other label. *)
Theorem filter_columns_error_names (df : DataFrame) (selected : list string)
  (e : exn) :
  filter_columns df selected = inl e ->
  forall k, In k (named e) <-> In k selected /\ ~ In k (columns df).
Proof.
  assert (Habsent : forall k,
             negb (existsb (String.eqb k) (columns df)) = true
             <-> ~ In k (columns df)).
  { intros k. rewrite negb_true_iff. split.
    - intros E Hin. apply Bool.not_true_iff_false in E. apply E.
      apply existsb_exists. exists k. split; [exact Hin|].
      apply String.eqb_refl.
    - intros Hn. apply Bool.not_true_iff_false. intros E. apply Hn.
      apply existsb_exists in E as [x [Hx Heq]].
      apply String.eqb_eq in Heq. now subst. }
  assert (Hg : getitem_list df selected = inl e ->
               forall k, In k (named e) <-> In k selected /\ ~ In k (columns df)).
  { unfold getitem_list.
    set (nf := filter (fun k => negb (existsb (String.eqb k) (columns df)))
                      selected).
    assert (Hnf : forall k, In k nf <-> In k selected /\ ~ In k (columns df)).
    { intros k. unfold nf. rewrite filter_In, Habsent. tauto. }
    destruct nf as [|x nf'] eqn:Enf; [discriminate|].
    destruct (Nat.eqb (List.length (x :: nf')) (List.length selected)) eqn:El.
    - intros H. injection H as <-. cbn [named]. intros k.
      apply Nat.eqb_eq in El. rewrite <- Enf in El.
      split; [|tauto]. intros Hk. split; [exact Hk|].
      apply Habsent. now apply (filter_all_kept _ selected El). 
    - intros H. injection H as <-. cbn [named]. intros k.
      rewrite unique_In. apply Hnf. }
  unfold filter_columns.
  destruct (list_eq_dec string_dec selected (columns df)); [discriminate|].
  destruct (set_eqb selected (columns df)); exact Hg.
Qed.

Lemma filter_columns_error_names_witness :
  filter_columns Samples.pets ["pet"; "height"; "Foo"; "height"]
  = inl (KeyError_not_in_index ["height"; "Foo"])
  /\ (In "Foo" ["height"; "Foo"]
      <-> In "Foo" ["pet"; "height"; "Foo"; "height"]
          /\ ~ In "Foo" (columns Samples.pets))
  /\ (In "pet" ["height"; "Foo"]
      <-> In "pet" ["pet"; "height"; "Foo"; "height"]
          /\ ~ In "pet" (columns Samples.pets)).
Proof.
  split; [reflexivity|].
  split;
    apply (filter_columns_error_names Samples.pets
             ["pet"; "height"; "Foo"; "height"]
             (KeyError_not_in_index ["height"; "Foo"]) eq_refl).
Defined.

